(** * pycubic: the authenticated session and its resource clients

    A shallow embedding of [pycubic/auth.py], [pycubic/user.py],
    [pycubic/cubic.py] and [pycubic/cubic_access.py].

    Modelling decisions, all visible in the definitions below:
    - Python values that travel through the client (JSON bodies, token
      fields, the cached user id) are [pyval]s; a Python [dict] is a
      [gmap string pyval].
    - The aiohttp session is an environment [serve] that answers every
      call with a response and may change its own state; every call that
      is sent is appended to a log, so "which calls were issued, in which
      order, with which headers" is a statement about that log.
    - [time.time()] reads a clock that belongs to the environment, hence
      may advance at every network call.  Clock readings and JSON floats
      are binary64 numbers ([PrimFloat.float]); [time.time() + 60] is the
      rounding addition of binary64, and comparisons are made on the
      exact values of the numbers compared, as Python makes them.
    - An exception aborts the computation but keeps the state reached so
      far, as in Python: the monad is state-then-error. *)

From Stdlib Require Import PrimFloat FloatOps SpecFloat.
From Stdlib Require Import ZArith QArith Lia Lqa Ascii String DecimalString.
From stdpp Require Import base option list gmap strings.

Local Open Scope string_scope.
Local Open Scope Z_scope.
Local Open Scope list_scope.

(** ** Numbers

    A Python [float] is a binary64 number.  What a number is worth is an
    extended real: not-a-number, an infinity, or a rational. *)

Inductive xreal : Type :=
| XNan
| XInf (negative : bool)
| XFin (q : Q).

Definition SF2X (f : spec_float) : xreal :=
  match f with
  | S754_zero _ => XFin 0
  | S754_infinity s => XInf s
  | S754_nan => XNan
  | S754_finite s m e =>
      XFin (Qred ((if s then -1 else 1) * inject_Z (Zpos m) * Qpower 2 e))
  end.

(** The exact value of a binary64 number. *)
Definition float_value (f : float) : xreal := SF2X (Prim2SF f).

Definition Qgt_bool (x y : Q) : bool := negb (Qle_bool x y).

(** [x > y] on values: false as soon as one side is not a number. *)
Definition xgt (x y : xreal) : bool :=
  match x, y with
  | XNan, _ | _, XNan => false
  | XInf sx, XInf sy => negb sx && sy
  | XInf sx, XFin _ => negb sx
  | XFin _, XInf sy => sy
  | XFin a, XFin b => Qgt_bool a b
  end.

(** The order on values is the order [PrimFloat.ltb] computes, here on
    ordinary numbers, the two zeros, the infinities and not-a-number. *)
Example xgt_is_float_order :
  forallb (fun '(x, y) => Bool.eqb (xgt (float_value x) (float_value y))
                                   (PrimFloat.ltb y x))
    [(1.5, 0.25); (0.25, 1.5); (0, -0); (-0, 0); (3, 3);
     (infinity, 0x1p1023); (0x1p1023, infinity); (neg_infinity, infinity);
     (infinity, infinity); (nan, 1); (1, nan); (nan, nan);
     (0x1p-1074, 0); (-0x1p-1074, 0); (0x1p55 + 60, 0x1p55 + 61)]%float%list
  = true.
Proof. vm_compute. reflexivity. Qed.

(** ** Python values *)

#[warnings="-register-all"] Inductive pyval : Type :=
| PNone
| PBool (b : bool)
| PInt (z : Z)
| PFloat (f : float)
| PStr (s : string)
| PList (l : list pyval)
| PDict (d : gmap string pyval).

(** Exceptions raised by the code under study.  [ClientResponseError]
    carries the [status] and [message] arguments the source passes. *)
Inductive exn : Type :=
| ValueError (msg : string)
| ClientResponseError (status : Z) (message : string)
| JSONError
| AttributeError
| TypeError
| KeyError (k : string).

Inductive result (A : Type) : Type :=
| Ok (a : A)
| Raise (e : exn).
Arguments Ok {A} a.
Arguments Raise {A} e.

(** Python truthiness, as used by [if not x]. *)
Definition truthy (v : pyval) : bool :=
  match v with
  | PNone => false
  | PBool b => b
  | PInt z => negb (z =? 0)
  | PFloat f => match float_value f with
                | XFin q => negb (Qeq_bool q 0)
                | _ => true
                end
  | PStr s => negb (String.eqb s "")
  | PList l => match l with [] => false | _ => true end
  | PDict d => negb (bool_decide (d = ∅))
  end.

(** [float > v]: numbers compare by exact value, an [int] of any size
    included ([bool] is a subtype of [int]); anything else raises
    [TypeError]. *)
Definition py_num (v : pyval) : option xreal :=
  match v with
  | PBool b => Some (XFin (if b then 1 else 0))
  | PInt z => Some (XFin (inject_Z z))
  | PFloat f => Some (float_value f)
  | _ => None
  end.

Definition py_float_gt (x : float) (v : pyval) : result bool :=
  match py_num v with
  | Some y => Ok (xgt (float_value x) y)
  | None => Raise TypeError
  end.

(** [data.get(key)]: [None] for a missing key; [AttributeError] when
    [data] is not a dict. *)
Definition py_get (data : pyval) (key : string) : result pyval :=
  match data with
  | PDict d => Ok (default PNone (d !! key))
  | _ => Raise AttributeError
  end.

(** [data[key]] with a string key. *)
Definition py_getitem (data : pyval) (key : string) : result pyval :=
  match data with
  | PDict d => match d !! key with
               | Some v => Ok v
               | None => Raise (KeyError key)
               end
  | _ => Raise TypeError
  end.

Definition str_of_Z (z : Z) : string := NilZero.string_of_int (Z.to_int z).

Example str_of_Z_200 : str_of_Z 200 = "200".
Proof. reflexivity. Qed.

Example truthy_empty_dict : truthy (PDict ∅) = false.
Proof. reflexivity. Qed.

Example truthy_dict : truthy (PDict {[ "a" := PNone ]}) = true.
Proof. vm_compute. reflexivity. Qed.

(** [f'{v}'].  [str()] of floats, lists and dicts (Python's [repr]) is
    left to the parameter [repr_other]; it is never needed for the string
    tokens and ids the API hands out. *)
Definition py_str (repr_other : pyval -> string) (v : pyval) : string :=
  match v with
  | PNone => "None"
  | PBool true => "True"
  | PBool false => "False"
  | PInt z => str_of_Z z
  | PStr s => s
  | _ => repr_other v
  end.

(** [lstrip("/")]: drop every leading slash. *)
Fixpoint lstrip_slash (s : string) : string :=
  match s with
  | String "/"%char s' => lstrip_slash s'
  | _ => s
  end.

Example lstrip_slash_ex : lstrip_slash "//auth/auth/user" = "auth/auth/user".
Proof. reflexivity. Qed.

(** ** Requests and responses *)

(** The keyword arguments handed to aiohttp: [headers], [json] and
    whatever else the caller passes through [**kwargs]. *)
Record Kwargs : Type := MkKwargs {
  kw_headers : option (gmap string string);
  kw_json : option pyval;
  kw_rest : gmap string pyval
}.

Definition no_kwargs : Kwargs :=
  {| kw_headers := None; kw_json := None; kw_rest := ∅ |}.

(** One call on the aiohttp session. *)
Record Call : Type := MkCall {
  c_method : string;
  c_url : string;
  c_kwargs : Kwargs
}.

(** What the client reads from a response: [response.status],
    [await response.text()] and [await response.json()], the latter
    failing when the body is not JSON. *)
Record Response : Type := MkResponse {
  status : Z;
  text : string;
  json : option pyval
}.

(** ** The authenticated session: [pycubic/auth.py] *)

Module AuthClient.

(** The fields set in [__init__]; [_session] is the environment [serve]
    of the section below. *)
Record t : Type := Mk {
  _base_url : string;
  _access_token : pyval;
  _refresh_token : pyval;
  _access_token_expire : pyval;
  _refresh_token_expire : pyval
}.

(** [AuthClient(base_url)] *)
Definition init (base_url : string) : t :=
  {| _base_url := base_url;
     _access_token := PNone;
     _refresh_token := PNone;
     _access_token_expire := PNone;
     _refresh_token_expire := PNone |}.

Definition set_access_token (v : pyval) (c : t) : t :=
  {| _base_url := _base_url c; _access_token := v;
     _refresh_token := _refresh_token c;
     _access_token_expire := _access_token_expire c;
     _refresh_token_expire := _refresh_token_expire c |}.

Definition set_refresh_token (v : pyval) (c : t) : t :=
  {| _base_url := _base_url c; _access_token := _access_token c;
     _refresh_token := v;
     _access_token_expire := _access_token_expire c;
     _refresh_token_expire := _refresh_token_expire c |}.

Definition set_access_token_expire (v : pyval) (c : t) : t :=
  {| _base_url := _base_url c; _access_token := _access_token c;
     _refresh_token := _refresh_token c;
     _access_token_expire := v;
     _refresh_token_expire := _refresh_token_expire c |}.

Definition set_refresh_token_expire (v : pyval) (c : t) : t :=
  {| _base_url := _base_url c; _access_token := _access_token c;
     _refresh_token := _refresh_token c;
     _access_token_expire := _access_token_expire c;
     _refresh_token_expire := v |}.

(** The store: the one [AuthClient] that all resource clients share, the
    state of the remote API, and the log of calls sent so far (oldest
    first). *)
Record Store (Remote : Type) : Type := MkStore {
  self : t;
  remote : Remote;
  sent : list Call
}.
Arguments MkStore {Remote} _ _ _.
Arguments self {Remote} _.
Arguments remote {Remote} _.
Arguments sent {Remote} _.

(** State-then-error monad: an exception keeps the store reached. *)
Definition M (Remote A : Type) : Type := Store Remote -> result A * Store Remote.

#[global] Instance M_ret {Remote} : MRet (M Remote) := fun A a s => (Ok a, s).
#[global] Instance M_bind {Remote} : MBind (M Remote) := fun A B f m s =>
  match m s with
  | (Ok a, s') => f a s'
  | (Raise e, s') => (Raise e, s')
  end.

Definition raise {Remote A} (e : exn) : M Remote A := fun s => (Raise e, s).
Definition lift {Remote A} (r : result A) : M Remote A := fun s => (r, s).
Definition get_self {Remote} : M Remote t := fun s => (Ok (self s), s).
Definition modify_self {Remote} (f : t -> t) : M Remote unit :=
  fun s => (Ok tt, {| self := f (self s); remote := remote s; sent := sent s |}).

Section Ops.

(** The environment: the remote API behind the aiohttp session, with a
    state of its own, and the wall clock. *)
Context {Remote : Type}.
Variable serve : Remote -> Call -> Remote * Response.
Variable clock : Remote -> float.
Variable repr_other : pyval -> string.

(** [time.time()] *)
Definition time_time : M Remote float := fun s => (Ok (clock (remote s)), s).

(** [self._session.request(method, url, **kwargs)]: the call is logged
    and the remote answers. *)
Definition session_request (method url : string) (kw : Kwargs) : M Remote Response :=
  fun s =>
    let c := {| c_method := method; c_url := url; c_kwargs := kw |} in
    let '(r', resp) := serve (remote s) c in
    (Ok resp, {| self := self s; remote := r'; sent := sent s ++ [c] |}).

Definition session_post : string -> Kwargs -> M Remote Response :=
  session_request "POST".
Definition session_get : string -> Kwargs -> M Remote Response :=
  session_request "GET".

(** [await response.json()] *)
Definition response_json (response : Response) : M Remote pyval :=
  match json response with
  | Some v => mret v
  | None => raise JSONError
  end.

(** The four assignments [self._x = data.get(...)] that [login] (lines
    48-51) and [refresh_token] (lines 110-113) both perform, in order. *)
Definition store_tokens (data : pyval) : M Remote unit :=
  v ← lift (py_get data "accessToken");
  modify_self (set_access_token v);;
  v ← lift (py_get data "refreshToken");
  modify_self (set_refresh_token v);;
  v ← lift (py_get data "accessTokenExpire");
  modify_self (set_access_token_expire v);;
  v ← lift (py_get data "refreshTokenExpire");
  modify_self (set_refresh_token_expire v).

Definition login (email password : string) : M Remote pyval :=
  this ← get_self;
  let url := _base_url this +:+ "/auth/auth/login" in
  let payload := PDict {[ "email" := PStr email; "password" := PStr password ]} in
  response ← session_post url
    {| kw_headers := None; kw_json := Some payload; kw_rest := ∅ |};
  if status response =? 200 then
    data ← response_json response;
    store_tokens data;;
    mret data
  else
    raise (ClientResponseError (status response)
             ("Login failed: " +:+ text response)).

Definition is_access_token_expired : M Remote bool :=
  this ← get_self;
  if negb (truthy (_access_token_expire this)) then mret true
  else
    now ← time_time;
    lift (py_float_gt (now + 60)%float (_access_token_expire this)).

(** [f'Bearer {self._access_token}'] *)
Definition bearer (this : t) : string :=
  "Bearer " +:+ py_str repr_other (_access_token this).

Definition is_current_token_valid : M Remote bool :=
  this ← get_self;
  if negb (truthy (_access_token this)) then mret false
  else
    let url := _base_url this +:+ "/auth/validate/token" in
    let headers : gmap string string := {[ "Authorization" := bearer this ]} in
    response ← session_get url
      {| kw_headers := Some headers; kw_json := None; kw_rest := ∅ |};
    mret (status response =? 200).

Definition refresh_token : M Remote unit :=
  this ← get_self;
  if negb (truthy (_refresh_token this)) then
    raise (ValueError "No refresh token available. Please login first.")
  else
    let url := _base_url this +:+ "/auth/auth/refresh" in
    let headers : gmap string string := {[ "Authorization" := bearer this ]} in
    let payload := PDict {[ "refreshToken" := _refresh_token this ]} in
    response ← session_post url
      {| kw_headers := Some headers; kw_json := Some payload; kw_rest := ∅ |};
    if status response =? 200 then
      data ← response_json response;
      store_tokens data
    else
      raise (ClientResponseError (status response)
               ("Token refresh failed: " +:+ text response)).

Definition _ensure_valid_access_token (check_server : bool) : M Remote unit :=
  is_access_token_expired ≫= λ expired : bool,
  if expired then refresh_token
  else if check_server then
    is_current_token_valid ≫= λ valid : bool,
    if negb valid then refresh_token else mret tt
  else mret tt.

Definition request (method endpoint : string) (kwargs : Kwargs) : M Remote pyval :=
  _ensure_valid_access_token false;;
  this ← get_self;
  let headers : gmap string string := default ∅ (kw_headers kwargs) in
  let headers : gmap string string :=
    <[ "Authorization" := bearer this ]> headers in
  let kwargs := {| kw_headers := Some headers;
                   kw_json := kw_json kwargs;
                   kw_rest := kw_rest kwargs |} in
  let url := _base_url this +:+ "/" +:+ lstrip_slash endpoint in
  response ← session_request method url kwargs;
  if status response =? 200 then response_json response
  else
    raise (ClientResponseError (status response)
             ("Failed to execute request " +:+ str_of_Z (status response)
              +:+ " - " +:+ text response)).

Definition get_user_id : M Remote pyval :=
  user ← request "GET" "/auth/auth/user" no_kwargs;
  lift (py_getitem user "userId").

End Ops.

End AuthClient.

(** ** The user client: [pycubic/user.py] *)

Module UserClient.

(** [_client] is the shared [AuthClient] of the store; [_user_id] is the
    instance's own cache. *)
Record t : Type := Mk { _user_id : pyval }.

(** [UserClient(client)] *)
Definition init : t := {| _user_id := PNone |}.

Section Ops.

Context {Remote : Type}.
Variable serve : Remote -> Call -> Remote * Response.
Variable clock : Remote -> float.
Variable repr_other : pyval -> string.

(** The endpoint built by the f-string of [_get_user_data]. *)
Definition endpoint (this : t) (data_type : string) (bypass : bool) : string :=
  "service/users/user/" +:+ py_str repr_other (_user_id this) +:+ "/"
  +:+ data_type +:+ "/" +:+ (if bypass then "1" else "0").

(** A method of the instance: result, the instance afterwards, the store
    afterwards. *)
Definition _get_user_data (data_type : string) (bypass : bool) (this : t)
    (s : AuthClient.Store Remote) : result pyval * t * AuthClient.Store Remote :=
  let fetch (this : t) (s : AuthClient.Store Remote) :=
    let '(r, s') :=
      AuthClient.request serve clock repr_other "GET"
        (endpoint this data_type bypass) no_kwargs s in
    (r, this, s') in
  if negb (truthy (_user_id this)) then
    match AuthClient.get_user_id serve clock repr_other s with
    | (Ok uid, s1) => fetch {| _user_id := uid |} s1
    | (Raise e, s1) => (Raise e, this, s1)
    end
  else fetch this s.

Definition get_structure (bypass : bool) :=
  _get_user_data "structure" bypass.

Definition get_information (bypass : bool) :=
  _get_user_data "information" bypass.

End Ops.

End UserClient.

(** ** The measurement client: [pycubic/cubic.py] *)

Module CubicClient.

Record t : Type := Mk { _serial_number : string }.

Section Ops.

Context {Remote : Type}.
Variable serve : Remote -> Call -> Remote * Response.
Variable clock : Remote -> float.
Variable repr_other : pyval -> string.

Definition get_measurement (this : t) (bypass : bool) : AuthClient.M Remote pyval :=
  let endpoint := "service/cubic/secure/" +:+ _serial_number this
                  +:+ "/measurement/" +:+ (if bypass then "1" else "0") in
  AuthClient.request serve clock repr_other "GET" endpoint no_kwargs.

Definition get_configuration (this : t) (bypass : bool) : AuthClient.M Remote pyval :=
  let endpoint := "service/cubic/secure/" +:+ _serial_number this
                  +:+ "/configuration/" +:+ (if bypass then "1" else "0") in
  AuthClient.request serve clock repr_other "GET" endpoint no_kwargs.

End Ops.

End CubicClient.

(** ** The valve client: [pycubic/cubic_access.py] *)

Module CubicAccessClient.

Record t : Type := Mk { _serial_number : string }.

Section Ops.

Context {Remote : Type}.
Variable serve : Remote -> Call -> Remote * Response.
Variable clock : Remote -> float.
Variable repr_other : pyval -> string.

Definition get_valve (this : t) : AuthClient.M Remote pyval :=
  let endpoint := "control/cubic/secure/" +:+ _serial_number this +:+ "/valve" in
  AuthClient.request serve clock repr_other "GET" endpoint no_kwargs.

Definition set_valve_state (this : t) (state : bool) : AuthClient.M Remote pyval :=
  let endpoint := "control/cubic/secure/" +:+ _serial_number this
                  +:+ "/valve/" +:+ (if state then "open" else "close") in
  AuthClient.request serve clock repr_other "POST" endpoint no_kwargs.

Definition open_valve (this : t) : AuthClient.M Remote pyval :=
  set_valve_state this true.

Definition close_valve (this : t) : AuthClient.M Remote pyval :=
  set_valve_state this false.

End Ops.

End CubicAccessClient.

(** ** A concrete remote for examples

    A scripted remote: its state is the list of responses still to be
    given and the clock reading; every call consumes one response (a 500
    with an empty body once the script is exhausted). *)

Record Script : Type := MkScript {
  script_now : float;
  script_left : list Response
}.

Definition script_serve (r : Script) (c : Call) : Script * Response :=
  match script_left r with
  | resp :: rest => ({| script_now := script_now r; script_left := rest |}, resp)
  | [] => (r, {| status := 500; text := ""; json := None |})
  end.

Definition script_repr (v : pyval) : string := "?".

Definition fresh_store (base_url : string) (now : float) (script : list Response)
  : AuthClient.Store Script :=
  AuthClient.MkStore (AuthClient.init base_url)
    {| script_now := now; script_left := script |} [].

(** The login and refresh body of the API, with string tokens. *)
Definition token_body (access refresh : string) (aexp rexp : Z) : pyval :=
  PDict {[ "accessToken" := PStr access; "refreshToken" := PStr refresh;
           "accessTokenExpire" := PInt aexp; "refreshTokenExpire" := PInt rexp ]}.

Definition ok_response (body : pyval) : Response :=
  {| status := 200; text := ""; json := Some body |}.

(** Method and URL of every call of a log. *)
Definition wire (l : list Call) : list (string * string) :=
  map (fun c => (c_method c, c_url c)) l.

(** ** What the session sends

    The calls the methods of [AuthClient] put on the wire, as functions
    of the client's fields at the time of sending. *)

(** What [is_access_token_expired] answers for a clock reading and a
    stored expiry. *)
Definition access_token_expired_at (now : float) (expire : pyval) : result bool :=
  if negb (truthy expire) then Ok true
  else py_float_gt (now + 60)%float expire.

Definition login_call (this : AuthClient.t) (email password : string) : Call :=
  {| c_method := "POST";
     c_url := AuthClient._base_url this +:+ "/auth/auth/login";
     c_kwargs :=
       {| kw_headers := None;
          kw_json := Some (PDict {[ "email" := PStr email;
                                    "password" := PStr password ]});
          kw_rest := ∅ |} |}.

Definition probe_call (repr_other : pyval -> string) (this : AuthClient.t) : Call :=
  {| c_method := "GET";
     c_url := AuthClient._base_url this +:+ "/auth/validate/token";
     c_kwargs :=
       {| kw_headers := Some {[ "Authorization" := AuthClient.bearer repr_other this ]};
          kw_json := None;
          kw_rest := ∅ |} |}.

Definition refresh_call (repr_other : pyval -> string) (this : AuthClient.t) : Call :=
  {| c_method := "POST";
     c_url := AuthClient._base_url this +:+ "/auth/auth/refresh";
     c_kwargs :=
       {| kw_headers := Some {[ "Authorization" := AuthClient.bearer repr_other this ]};
          kw_json := Some (PDict {[ "refreshToken" := AuthClient._refresh_token this ]});
          kw_rest := ∅ |} |}.

Definition request_call (repr_other : pyval -> string) (this : AuthClient.t)
    (method endpoint : string) (kwargs : Kwargs) : Call :=
  {| c_method := method;
     c_url := AuthClient._base_url this +:+ "/" +:+ lstrip_slash endpoint;
     c_kwargs :=
       {| kw_headers :=
            Some (<[ "Authorization" := AuthClient.bearer repr_other this ]>
                    (default ∅ (kw_headers kwargs)));
          kw_json := kw_json kwargs;
          kw_rest := kw_rest kwargs |} |}.

(** The headers of a call ([{}] when none were passed). *)
Definition headers_of (c : Call) : gmap string string :=
  default ∅ (kw_headers (c_kwargs c)).

(** The client after the four token fields were read off a JSON object. *)
Definition with_tokens (d : gmap string pyval) (c : AuthClient.t) : AuthClient.t :=
  {| AuthClient._base_url := AuthClient._base_url c;
     AuthClient._access_token := default PNone (d !! "accessToken");
     AuthClient._refresh_token := default PNone (d !! "refreshToken");
     AuthClient._access_token_expire := default PNone (d !! "accessTokenExpire");
     AuthClient._refresh_token_expire := default PNone (d !! "refreshTokenExpire") |}.

(** The store after call [c] was sent from store [s] and the remote moved
    to [r']. *)
Definition after_call {Remote} (s : AuthClient.Store Remote) (c : Call) (r' : Remote)
  : AuthClient.Store Remote :=
  {| AuthClient.self := AuthClient.self s;
     AuthClient.remote := r';
     AuthClient.sent := AuthClient.sent s ++ [c] |}.

Definition with_self {Remote} (this : AuthClient.t) (s : AuthClient.Store Remote)
  : AuthClient.Store Remote :=
  {| AuthClient.self := this;
     AuthClient.remote := AuthClient.remote s;
     AuthClient.sent := AuthClient.sent s |}.

(** The user-id lookup among the calls of a log. *)
Definition is_lookup (base_url : string) (c : Call) : bool :=
  String.eqb (c_method c) "GET"
  && String.eqb (c_url c) (base_url +:+ "/auth/auth/user").

Definition lookups (base_url : string) (l : list Call) : nat :=
  length (filter (fun c => is_lookup base_url c = true) l).

(** * Properties *)

(** ** Strings *)

Lemma append_cancel_l (a x y : string) : a +:+ x = a +:+ y -> x = y.
Proof.
  induction a as [|ch a IH]; cbn; [trivial|].
  intros H. injection H as H. auto.
Qed.

Section Properties.

Context {Remote : Type}.
Variable serve : Remote -> Call -> Remote * Response.
Variable clock : Remote -> float.
Variable repr_other : pyval -> string.

Import AuthClient.

Implicit Types (s : Store Remote) (this : AuthClient.t).

(** ** Running the monad *)

Lemma bind_run {A B} (m : M Remote A) (f : A -> M Remote B) s :
  (m ≫= f) s =
  match m s with
  | (Ok a, s') => f a s'
  | (Raise e, s') => (Raise e, s')
  end.
Proof. reflexivity. Qed.

Lemma store_tokens_dict d s :
  store_tokens (PDict d) s = (Ok tt, with_self (with_tokens d (self s)) s).
Proof. reflexivity. Qed.

Lemma store_tokens_not_dict data s :
  (forall d, data <> PDict d) -> store_tokens data s = (Raise AttributeError, s).
Proof. intros H. destruct data; try reflexivity. now destruct (H d). Qed.

Lemma store_tokens_raise data s e s' :
  store_tokens data s = (Raise e, s') -> s' = s.
Proof.
  destruct data; cbv [store_tokens py_get lift mbind M_bind];
    intros H; inversion H; reflexivity.
Qed.

Lemma session_request_run method url kw s :
  session_request serve method url kw s =
  let c := {| c_method := method; c_url := url; c_kwargs := kw |} in
  (Ok (serve (remote s) c).2, after_call s c (serve (remote s) c).1).
Proof.
  unfold session_request. cbv zeta. now destruct (serve _ _).
Qed.

(** [login] in one step: the call, then the branch on the status. *)
Lemma login_run email password s :
  login serve email password s =
  let c := login_call (self s) email password in
  let s1 := after_call s c (serve (remote s) c).1 in
  let resp := (serve (remote s) c).2 in
  if status resp =? 200 then
    match json resp with
    | Some data => match store_tokens data s1 with
                   | (Ok _, s2) => (Ok data, s2)
                   | (Raise e, s2) => (Raise e, s2)
                   end
    | None => (Raise JSONError, s1)
    end
  else (Raise (ClientResponseError (status resp)
                 ("Login failed: " +:+ text resp)), s1).
Proof.
  unfold login. rewrite bind_run. unfold get_self at 1. cbv zeta.
  rewrite bind_run. unfold session_post. rewrite session_request_run.
  cbv beta iota zeta.
  change (MkCall _ _ _) with (login_call (self s) email password).
  destruct (status _ =? 200); [|reflexivity].
  rewrite bind_run. unfold response_json. destruct (json _); [|reflexivity].
  cbv [mret M_ret]. rewrite bind_run.
  destruct (store_tokens _ _) as [[[]|] ?]; reflexivity.
Qed.

(** [refresh_token] in one step. *)
Lemma refresh_token_run s :
  refresh_token serve repr_other s =
  if truthy (_refresh_token (self s)) then
    let c := refresh_call repr_other (self s) in
    let s1 := after_call s c (serve (remote s) c).1 in
    let resp := (serve (remote s) c).2 in
    if status resp =? 200 then
      match json resp with
      | Some data => store_tokens data s1
      | None => (Raise JSONError, s1)
      end
    else (Raise (ClientResponseError (status resp)
                   ("Token refresh failed: " +:+ text resp)), s1)
  else (Raise (ValueError "No refresh token available. Please login first."), s).
Proof.
  unfold refresh_token. rewrite bind_run. unfold get_self at 1.
  destruct (truthy _); cbn [negb]; [|reflexivity].
  cbv zeta. rewrite bind_run. unfold session_post. rewrite session_request_run.
  cbv beta iota zeta.
  change (MkCall _ _ _) with (refresh_call repr_other (self s)).
  destruct (status _ =? 200); [|reflexivity].
  rewrite bind_run. unfold response_json. destruct (json _); reflexivity.
Qed.

(** [is_access_token_expired] reads the store and the clock and changes
    neither. *)
Lemma is_access_token_expired_run s :
  is_access_token_expired clock s =
  (access_token_expired_at (clock (remote s)) (_access_token_expire (self s)), s).
Proof.
  unfold is_access_token_expired, access_token_expired_at.
  rewrite bind_run. unfold get_self at 1. cbv beta iota.
  destruct (negb _); reflexivity.
Qed.

Lemma is_current_token_valid_run s :
  is_current_token_valid serve repr_other s =
  if truthy (_access_token (self s)) then
    let c := probe_call repr_other (self s) in
    (Ok (status (serve (remote s) c).2 =? 200),
     after_call s c (serve (remote s) c).1)
  else (Ok false, s).
Proof.
  unfold is_current_token_valid. rewrite bind_run. unfold get_self at 1.
  cbv beta iota. destruct (truthy _); cbn [negb]; [|reflexivity].
  cbv zeta. rewrite bind_run. unfold session_get.
  rewrite session_request_run. reflexivity.
Qed.

(** [_ensure_valid_access_token()] as [request] calls it. *)
Lemma ensure_run s :
  _ensure_valid_access_token serve clock repr_other false s =
  match access_token_expired_at (clock (remote s)) (_access_token_expire (self s)) with
  | Ok true => refresh_token serve repr_other s
  | Ok false => (Ok tt, s)
  | Raise e => (Raise e, s)
  end.
Proof.
  unfold _ensure_valid_access_token. rewrite bind_run.
  rewrite is_access_token_expired_run.
  destruct (access_token_expired_at _ _) as [[]|]; reflexivity.
Qed.

(** [request] in one step: the token check, then the call, then the
    branch on the status. *)
Lemma request_run method endpoint kwargs s :
  request serve clock repr_other method endpoint kwargs s =
  match _ensure_valid_access_token serve clock repr_other false s with
  | (Ok _, s1) =>
      let c := request_call repr_other (self s1) method endpoint kwargs in
      let s2 := after_call s1 c (serve (remote s1) c).1 in
      let resp := (serve (remote s1) c).2 in
      if status resp =? 200 then
        match json resp with
        | Some v => (Ok v, s2)
        | None => (Raise JSONError, s2)
        end
      else (Raise (ClientResponseError (status resp)
                     ("Failed to execute request " +:+ str_of_Z (status resp)
                      +:+ " - " +:+ text resp)), s2)
  | (Raise e, s1) => (Raise e, s1)
  end.
Proof.
  unfold request. rewrite bind_run.
  destruct (_ensure_valid_access_token _ _ _ _ _) as [[[]|e] s1]; [|reflexivity].
  rewrite bind_run. unfold get_self at 1. cbv beta iota zeta.
  rewrite bind_run, session_request_run. cbv beta iota zeta.
  change (MkCall _ _ _) with (request_call repr_other (self s1) method endpoint kwargs).
  destruct (status _ =? 200); [|reflexivity].
  unfold response_json. destruct (json _); reflexivity.
Qed.

(** No method of the session ever changes [_base_url]. *)
Lemma with_tokens_base_url d this : _base_url (with_tokens d this) = _base_url this.
Proof. reflexivity. Qed.

Lemma store_tokens_base_url data s :
  _base_url (self (store_tokens data s).2) = _base_url (self s).
Proof. destruct data; reflexivity. Qed.

Lemma store_tokens_sent data s :
  sent (store_tokens data s).2 = sent s /\ remote (store_tokens data s).2 = remote s.
Proof. destruct data; split; reflexivity. Qed.

(** ** Login, refresh and the stored token pair *)

(** C4: [login] answered with status 200 and a JSON object stores the four
    token fields read from that object and returns the object; answered
    with any other status it raises [ClientResponseError] with that
    status and a message that ends in the response's body text.  In both
    cases exactly the login call was sent. *)
Theorem login_stores_tokens_or_raises email password s :
  let c := login_call (self s) email password in
  let resp := (serve (remote s) c).2 in
  let s1 := after_call s c (serve (remote s) c).1 in
  (status resp = 200 -> forall d, json resp = Some (PDict d) ->
     login serve email password s =
     (Ok (PDict d), with_self (with_tokens d (self s)) s1))
  /\ (status resp <> 200 ->
     login serve email password s =
     (Raise (ClientResponseError (status resp)
               ("Login failed: " +:+ text resp)), s1)).
Proof.
  cbv zeta. split.
  - intros Hst d Hjs. rewrite login_run. cbv zeta.
    rewrite Hst, Hjs. reflexivity.
  - intros Hst. rewrite login_run. cbv zeta.
    apply Z.eqb_neq in Hst. rewrite Hst. reflexivity.
Qed.

(** C3: with no refresh token stored ([None], as before any login, or any
    other falsy value) [refresh_token] raises [ValueError] and returns the
    store it was given: no call was sent, the remote was not contacted
    and the token pair is unchanged. *)
Theorem refresh_token_before_login s :
  truthy (_refresh_token (self s)) = false ->
  refresh_token serve repr_other s =
  (Raise (ValueError "No refresh token available. Please login first."), s).
Proof.
  intros H. rewrite refresh_token_run, H. reflexivity.
Qed.

(** ** The expiry test *)

Lemma Qgt_bool_iff (x y : Q) : Qgt_bool x y = true <-> (y < x)%Q.
Proof.
  unfold Qgt_bool. rewrite negb_true_iff.
  split.
  - intros H. apply Qnot_le_lt. intros Hle.
    apply Qle_bool_iff in Hle. congruence.
  - intros H. destruct (Qle_bool x y) eqn:E; [|reflexivity].
    apply Qle_bool_iff in E. exfalso. apply (Qlt_not_le _ _ H E).
Qed.

Lemma Qgt_bool_false_iff (x y : Q) : Qgt_bool x y = false <-> (x <= y)%Q.
Proof.
  unfold Qgt_bool. rewrite negb_false_iff. apply Qle_bool_iff.
Qed.

(** A number is falsy exactly when it is zero. *)
Lemma truthy_num (v : pyval) (x : Q) :
  py_num v = Some (XFin x) -> truthy v = negb (Qeq_bool x 0).
Proof.
  destruct v as [|[]|z|f| | |]; cbn; intros H; inversion H; subst; try reflexivity.
  - unfold Qeq_bool. cbn. rewrite Z.mul_1_r. destruct z; reflexivity.
  - match goal with E : float_value f = _ |- _ => now rewrite E end.
Qed.

(** The expiry test on a finite expiry [x], [S] being the value of the
    binary64 sum [now + 60]. *)
Lemma expired_at_num now (v : pyval) (x S : Q) :
  py_num v = Some (XFin x) ->
  float_value (now + 60)%float = XFin S ->
  access_token_expired_at now v =
  if Qeq_bool x 0 then Ok true else Ok (Qgt_bool S x).
Proof.
  intros H HS. unfold access_token_expired_at, py_float_gt.
  rewrite (truthy_num _ _ H), H, HS. destruct (Qeq_bool x 0); reflexivity.
Qed.

(** C2, as the code has it: [is_access_token_expired] changes nothing and
    its answer is determined by the stored expiry and the clock reading;
    with no expiry stored it answers [True].  The margin is added in
    binary64: with [S] the value of the float sum [time.time() + 60] and
    [x] the value of a stored numeric expiry, it answers [True] when
    [x < S] and also when [x] is zero, [False] when [x] is not zero and
    [S < x], and [False] as well when [x] is not zero and [S = x]: the
    token counts as usable exactly while [S <= x]. *)
Theorem is_access_token_expired_margin s :
  let now := clock (remote s) in
  let expire := _access_token_expire (self s) in
  (forall s', clock (remote s') = now ->
     _access_token_expire (self s') = expire ->
     (is_access_token_expired clock s').1 = (is_access_token_expired clock s).1)
  /\ (is_access_token_expired clock s).2 = s
  /\ (expire = PNone -> is_access_token_expired clock s = (Ok true, s))
  /\ (forall x S : Q,
        py_num expire = Some (XFin x) ->
        float_value (now + 60)%float = XFin S ->
        (x < S -> is_access_token_expired clock s = (Ok true, s))
        /\ (x == 0 -> is_access_token_expired clock s = (Ok true, s))
        /\ (~ x == 0 -> S < x ->
            is_access_token_expired clock s = (Ok false, s))
        /\ (~ x == 0 -> S == x ->
            is_access_token_expired clock s = (Ok false, s))
        /\ (is_access_token_expired clock s = (Ok false, s) ->
            S <= x /\ ~ x == 0))%Q.
Proof.
  cbv zeta. split; [|split; [|split]].
  - intros s' Hc He. rewrite !is_access_token_expired_run. cbn [fst].
    now rewrite Hc, He.
  - now rewrite is_access_token_expired_run.
  - intros He. rewrite is_access_token_expired_run, He. reflexivity.
  - intros x S Hx HS.
    rewrite is_access_token_expired_run, (expired_at_num _ _ _ _ Hx HS).
    split; [|split; [|split; [|split]]].
    + intros Hlt. destruct (Qeq_bool x 0); [reflexivity|].
      apply Qgt_bool_iff in Hlt. now rewrite Hlt.
    + intros Hz. apply Qeq_bool_iff in Hz. now rewrite Hz.
    + intros Hnz Hlt. destruct (Qeq_bool x 0) eqn:E.
      * apply Qeq_bool_iff in E. contradiction.
      * assert (Hf : Qgt_bool S x = false) by (apply Qgt_bool_false_iff; lra).
        now rewrite Hf.
    + intros Hnz Heq. destruct (Qeq_bool x 0) eqn:E.
      * apply Qeq_bool_iff in E. contradiction.
      * assert (Hf : Qgt_bool S x = false) by (apply Qgt_bool_false_iff; lra).
        now rewrite Hf.
    + destruct (Qeq_bool x 0) eqn:E; [intros H; inversion H|].
      intros H. split.
      * apply Qgt_bool_false_iff. now inversion H.
      * intros Hz. apply Qeq_bool_iff in Hz. congruence.
Qed.

(** ** The server-side probe *)

(** C8: [is_current_token_valid] never raises.  With no access token
    stored it answers [False] and returns the store untouched (no call);
    otherwise it sends exactly the probe and answers [True] exactly when
    the probe's status is 200. *)
Theorem is_current_token_valid_probe s :
  (truthy (_access_token (self s)) = false ->
     is_current_token_valid serve repr_other s = (Ok false, s))
  /\ (truthy (_access_token (self s)) = true ->
      let c := probe_call repr_other (self s) in
      exists b,
        is_current_token_valid serve repr_other s =
        (Ok b, after_call s c (serve (remote s) c).1)
        /\ (b = true <-> status (serve (remote s) c).2 = 200))
  /\ (exists b s', is_current_token_valid serve repr_other s = (Ok b, s')).
Proof.
  rewrite is_current_token_valid_run.
  destruct (truthy _); cbv zeta; repeat split; try discriminate; eauto.
  intros _. eexists. split; [reflexivity|]. apply Z.eqb_eq.
Qed.

(** ** The authenticated request *)

(** When the token check passes, [request] sends exactly one call, built
    from the client as the check left it. *)
Lemma request_after_check method endpoint kwargs s s1 :
  _ensure_valid_access_token serve clock repr_other false s = (Ok tt, s1) ->
  let c := request_call repr_other (self s1) method endpoint kwargs in
  let out := request serve clock repr_other method endpoint kwargs s in
  sent out.2 = sent s1 ++ [c]
  /\ self out.2 = self s1
  /\ remote out.2 = (serve (remote s1) c).1.
Proof.
  intros H. cbv zeta. rewrite request_run, H. cbv zeta.
  destruct (status _ =? 200); [destruct (json _)|]; repeat split; reflexivity.
Qed.

(** When the token check raises, [request] stops there. *)
Lemma request_check_raises method endpoint kwargs s e s1 :
  _ensure_valid_access_token serve clock repr_other false s = (Raise e, s1) ->
  request serve clock repr_other method endpoint kwargs s = (Raise e, s1).
Proof. intros H. now rewrite request_run, H. Qed.

(** [login] and [refresh_token] either raise and leave the client alone,
    or return and replace all four token fields by those of one JSON
    object. *)
Lemma login_all_or_nothing email password s :
  let out := login serve email password s in
  (exists e, out.1 = Raise e /\ self out.2 = self s)
  \/ (exists d, out.1 = Ok (PDict d) /\ self out.2 = with_tokens d (self s)).
Proof.
  cbv zeta. rewrite login_run. cbv zeta.
  destruct (status _ =? 200); [|left; eauto].
  destruct (json _) as [data|]; [|left; eauto].
  destruct data; try (left; eauto; fail).
  right. eauto.
Qed.

Lemma refresh_token_all_or_nothing s :
  let out := refresh_token serve repr_other s in
  (exists e, out.1 = Raise e /\ self out.2 = self s)
  \/ (exists d, out.1 = Ok tt /\ self out.2 = with_tokens d (self s)).
Proof.
  cbv zeta. rewrite refresh_token_run.
  destruct (truthy _); [|left; eauto].
  cbv zeta. destruct (status _ =? 200); [|left; eauto].
  destruct (json _) as [data|]; [|left; eauto].
  destruct data; try (left; eauto; fail).
  right. eauto.
Qed.

(** C5: when [login] or [refresh_token] raises, whatever the error, the
    client is exactly as it was before the call: none of the four token
    fields has been touched.  Each of the two either raises with the
    client unchanged or returns with all four fields replaced by those of
    the JSON object received; and whatever [request] does, it leaves the
    token pair as it was or replaced as a whole, never in part. *)
Theorem failed_login_or_refresh_keeps_tokens email password s :
  let l := login serve email password s in
  let r := refresh_token serve repr_other s in
  (forall e s', l = (Raise e, s') -> self s' = self s)
  /\ (forall e s', r = (Raise e, s') -> self s' = self s)
  /\ ((exists e, l.1 = Raise e /\ self l.2 = self s)
      \/ (exists d, l.1 = Ok (PDict d) /\ self l.2 = with_tokens d (self s)))
  /\ ((exists e, r.1 = Raise e /\ self r.2 = self s)
      \/ (exists d, r.1 = Ok tt /\ self r.2 = with_tokens d (self s)))
  /\ (forall method endpoint kwargs,
        let q := request serve clock repr_other method endpoint kwargs s in
        self q.2 = self s \/ exists d, self q.2 = with_tokens d (self s)).
Proof.
  cbv zeta.
  pose proof (login_all_or_nothing email password s) as Hl.
  pose proof (refresh_token_all_or_nothing s) as Hr.
  cbv zeta in Hl, Hr.
  split; [|split; [|split; [exact Hl|split; [exact Hr|]]]].
  - intros e s' H. rewrite H in Hl. cbn [fst snd] in Hl.
    destruct Hl as [(e' & _ & Hs) | (d & Hd & _)]; [exact Hs | discriminate Hd].
  - intros e s' H. rewrite H in Hr. cbn [fst snd] in Hr.
    destruct Hr as [(e' & _ & Hs) | (d & Hd & _)]; [exact Hs | discriminate Hd].
  - intros method endpoint kwargs.
    assert (He : self (_ensure_valid_access_token serve clock repr_other false s).2 = self s
                 \/ exists d, self (_ensure_valid_access_token serve clock repr_other false s).2
                              = with_tokens d (self s)).
    { rewrite ensure_run.
      destruct (access_token_expired_at _ _) as [[]|]; try (now left).
      destruct Hr as [(e' & _ & Hs) | (d & _ & Hd)]; [now left | right; eauto]. }
    destruct (_ensure_valid_access_token _ _ _ _ _) as [[[]|e] s1] eqn:E.
    + destruct (request_after_check method endpoint kwargs s s1 E) as (_ & Hself & _).
      now rewrite Hself.
    + now rewrite (request_check_raises method endpoint kwargs s e s1 E).
Qed.

(** C7: the call that [request] sends carries [Authorization: Bearer
    <stored access token>]; under every other key its headers are the
    caller's, entry for entry (nothing else added, nothing else altered);
    the method and the other keyword arguments pass through unchanged. *)
Theorem request_headers method endpoint kwargs s s1 :
  _ensure_valid_access_token serve clock repr_other false s = (Ok tt, s1) ->
  let out := request serve clock repr_other method endpoint kwargs s in
  exists c : Call,
    sent out.2 = sent s1 ++ [c]
    /\ c_method c = method
    /\ is_Some (kw_headers (c_kwargs c))
    /\ headers_of c !! "Authorization"
       = Some ("Bearer " +:+ py_str repr_other (_access_token (self out.2)))
    /\ (forall k : string, k <> "Authorization" ->
          headers_of c !! k = default ∅ (kw_headers kwargs) !! k)
    /\ kw_json (c_kwargs c) = kw_json kwargs
    /\ kw_rest (c_kwargs c) = kw_rest kwargs.
Proof.
  intros H. cbv zeta.
  destruct (request_after_check method endpoint kwargs s s1 H) as (Hs & Hself & _).
  exists (request_call repr_other (self s1) method endpoint kwargs).
  rewrite Hself. repeat split; try assumption.
  - cbn. eauto.
  - unfold headers_of, request_call. cbn [c_kwargs kw_headers default].
    apply lookup_insert_eq.
  - intros k Hk. unfold headers_of, request_call. cbn [c_kwargs kw_headers].
    change (default ∅ (Some ?m)) with m.
    now apply lookup_insert_ne.
Qed.

(** A refresh answered with status 200 and a JSON object. *)
Lemma refresh_token_ok s d :
  truthy (_refresh_token (self s)) = true ->
  let rc := refresh_call repr_other (self s) in
  status (serve (remote s) rc).2 = 200 ->
  json (serve (remote s) rc).2 = Some (PDict d) ->
  refresh_token serve repr_other s =
  (Ok tt, with_self (with_tokens d (self s))
            (after_call s rc (serve (remote s) rc).1)).
Proof.
  intros Ht. cbv zeta. intros Hst Hjs.
  rewrite refresh_token_run, Ht. cbv zeta. rewrite Hst, Hjs. reflexivity.
Qed.

(** C1, as the code has it.  (i) [request] runs the token check first: if
    the check raises, nothing more is sent; if it passes, exactly one more
    call follows.  (ii) With a locally expired token and no refresh token
    stored, [ValueError] is raised and nothing is sent at all.  (iii) With a
    locally expired token and a refresh token stored, exactly one refresh
    call is sent first; answered with another status than 200 it makes
    [request] raise, and the original request is not sent; answered with
    200 and a JSON object, the original request is sent next and carries
    the access token of that object.  (iv) With a token that is not
    expired, the request is the only call. *)
Theorem request_refreshes_expired_token method endpoint kwargs s :
  let run := request serve clock repr_other method endpoint kwargs s in
  let rc := refresh_call repr_other (self s) in
  (forall e s1,
     _ensure_valid_access_token serve clock repr_other false s = (Raise e, s1) ->
     run = (Raise e, s1))
  /\ (forall s1,
     _ensure_valid_access_token serve clock repr_other false s = (Ok tt, s1) ->
     sent run.2 = sent s1 ++ [request_call repr_other (self s1) method endpoint kwargs])
  /\ (is_access_token_expired clock s = (Ok true, s) ->
      truthy (_refresh_token (self s)) = false ->
      run = (Raise (ValueError "No refresh token available. Please login first."), s))
  /\ (is_access_token_expired clock s = (Ok true, s) ->
      truthy (_refresh_token (self s)) = true ->
      status (serve (remote s) rc).2 <> 200 ->
      run = (Raise (ClientResponseError (status (serve (remote s) rc).2)
                      ("Token refresh failed: " +:+ text (serve (remote s) rc).2)),
             after_call s rc (serve (remote s) rc).1))
  /\ (is_access_token_expired clock s = (Ok true, s) ->
      truthy (_refresh_token (self s)) = true ->
      status (serve (remote s) rc).2 = 200 ->
      forall d, json (serve (remote s) rc).2 = Some (PDict d) ->
      let c := request_call repr_other (with_tokens d (self s)) method endpoint kwargs in
      sent run.2 = sent s ++ [rc; c]
      /\ headers_of c !! "Authorization"
         = Some ("Bearer " +:+ py_str repr_other (default PNone (d !! "accessToken")))
      /\ _access_token (self run.2) = default PNone (d !! "accessToken"))
  /\ (is_access_token_expired clock s = (Ok false, s) ->
      sent run.2 = sent s ++ [request_call repr_other (self s) method endpoint kwargs]).
Proof.
  cbv zeta. split; [|split; [|split; [|split; [|split]]]].
  - intros e s1 H. now apply request_check_raises.
  - intros s1 H. now apply request_after_check.
  - rewrite is_access_token_expired_run. intros He Ht.
    apply request_check_raises. rewrite ensure_run.
    injection He as He. now rewrite He, refresh_token_run, Ht.
  - rewrite is_access_token_expired_run. intros He Ht Hst.
    apply request_check_raises. rewrite ensure_run.
    injection He as He. rewrite He, refresh_token_run, Ht. cbv zeta.
    apply Z.eqb_neq in Hst. now rewrite Hst.
  - rewrite is_access_token_expired_run. intros He Ht Hst d Hjs.
    injection He as He.
    assert (Hens : _ensure_valid_access_token serve clock repr_other false s =
                   (Ok tt, with_self (with_tokens d (self s))
                             (after_call s (refresh_call repr_other (self s))
                                (serve (remote s) (refresh_call repr_other (self s))).1))).
    { rewrite ensure_run, He. now apply refresh_token_ok. }
    destruct (request_after_check method endpoint kwargs _ _ Hens) as (Hs & Hself & _).
    rewrite Hs, Hself. cbn [with_self after_call sent self].
    rewrite <- app_assoc. repeat split.
    unfold headers_of, request_call. cbn [c_kwargs kw_headers default].
    apply lookup_insert_eq.
  - rewrite is_access_token_expired_run. intros He. injection He as He.
    assert (Hens : _ensure_valid_access_token serve clock repr_other false s = (Ok tt, s))
      by now rewrite ensure_run, He.
    now destruct (request_after_check method endpoint kwargs _ _ Hens) as (Hs & _).
Qed.

(** ** What the token check may send *)

Lemma refresh_token_effect s :
  let out := refresh_token serve repr_other s in
  _base_url (self out.2) = _base_url (self s)
  /\ (out.2 = s \/ sent out.2 = sent s ++ [refresh_call repr_other (self s)]).
Proof.
  cbv zeta. rewrite refresh_token_run.
  destruct (truthy _); [|split; [reflexivity|now left]].
  cbv zeta. destruct (status _ =? 200); [|split; [reflexivity|now right]].
  destruct (json _) as [data|]; [|split; [reflexivity|now right]].
  split.
  - now rewrite store_tokens_base_url.
  - right. now rewrite (proj1 (store_tokens_sent data _)).
Qed.

Lemma ensure_effect s :
  let out := _ensure_valid_access_token serve clock repr_other false s in
  _base_url (self out.2) = _base_url (self s)
  /\ (out.2 = s \/ sent out.2 = sent s ++ [refresh_call repr_other (self s)]).
Proof.
  cbv zeta. rewrite ensure_run.
  destruct (access_token_expired_at _ _) as [[]|].
  - apply refresh_token_effect.
  - split; [reflexivity|now left].
  - split; [reflexivity|now left].
Qed.

(** With a token that is not locally expired the check does nothing. *)
Lemma ensure_not_expired s :
  is_access_token_expired clock s = (Ok false, s) ->
  _ensure_valid_access_token serve clock repr_other false s = (Ok tt, s).
Proof.
  rewrite is_access_token_expired_run. intros H. injection H as H.
  now rewrite ensure_run, H.
Qed.

(** ** Resource clients: one authenticated call per operation *)

(** [issues m method path]: run from any store, [m] first performs the
    session's token check; if the check raises, [m] raises the same error
    and sends nothing more; otherwise [m] sends exactly one further call,
    [method] on [<base url>/<path>], with the bearer header as only
    header and no body. *)
Definition issues (m : M Remote pyval) (method path : string) : Prop :=
  forall s,
    match _ensure_valid_access_token serve clock repr_other false s with
    | (Ok _, s1) =>
        exists c : Call,
          sent (m s).2 = sent s1 ++ [c]
          /\ c_method c = method
          /\ c_url c = _base_url (self s) +:+ "/" +:+ path
          /\ kw_headers (c_kwargs c)
             = Some {[ "Authorization" := AuthClient.bearer repr_other (self s1) ]}
          /\ kw_json (c_kwargs c) = None
    | (Raise e, s1) => m s = (Raise e, s1)
    end.

Lemma request_issues method endpoint :
  lstrip_slash endpoint = endpoint ->
  issues (request serve clock repr_other method endpoint no_kwargs) method endpoint.
Proof.
  intros Hstrip s.
  pose proof (ensure_effect s) as [Hbase _]. cbv zeta in Hbase.
  destruct (_ensure_valid_access_token _ _ _ _ _) as [[[]|e] s1] eqn:E.
  - destruct (request_after_check method endpoint no_kwargs s s1 E) as (Hs & _).
    eexists. split; [exact Hs|].
    cbn [snd] in Hbase. unfold request_call. cbn [c_method c_url c_kwargs kw_headers kw_json].
    rewrite Hstrip, Hbase. repeat split.
  - now apply request_check_raises.
Qed.

(** With a token that is not locally expired, an operation that [issues]
    a call sends that call and nothing else. *)
Lemma issues_not_expired m method path s :
  issues m method path ->
  is_access_token_expired clock s = (Ok false, s) ->
  exists c : Call,
    sent (m s).2 = sent s ++ [c]
    /\ c_method c = method
    /\ c_url c = _base_url (self s) +:+ "/" +:+ path.
Proof.
  intros Hm He. specialize (Hm s). rewrite (ensure_not_expired s He) in Hm.
  destruct Hm as (c & H1 & H2 & H3 & _). eauto.
Qed.

(** C9: [set_valve_state(True)] issues a POST to
    [control/cubic/secure/<serial>/valve/open], [set_valve_state(False)] a
    POST to [.../valve/close]; [open_valve] is [set_valve_state(True)] and
    [close_valve] is [set_valve_state(False)]. *)
Theorem set_valve_state_paths (this : CubicAccessClient.t) :
  let sn := CubicAccessClient._serial_number this in
  issues (CubicAccessClient.set_valve_state serve clock repr_other this true)
    "POST" ("control/cubic/secure/" +:+ sn +:+ "/valve/open")
  /\ issues (CubicAccessClient.set_valve_state serve clock repr_other this false)
    "POST" ("control/cubic/secure/" +:+ sn +:+ "/valve/close")
  /\ CubicAccessClient.open_valve serve clock repr_other this
     = CubicAccessClient.set_valve_state serve clock repr_other this true
  /\ CubicAccessClient.close_valve serve clock repr_other this
     = CubicAccessClient.set_valve_state serve clock repr_other this false.
Proof.
  cbv zeta. repeat split.
  - unfold CubicAccessClient.set_valve_state. cbv zeta.
    apply request_issues. reflexivity.
  - unfold CubicAccessClient.set_valve_state. cbv zeta.
    apply request_issues. reflexivity.
Qed.

Lemma request_base_url method endpoint kwargs s :
  _base_url (self (request serve clock repr_other method endpoint kwargs s).2)
  = _base_url (self s).
Proof.
  pose proof (ensure_effect s) as [Hbase _]. cbv zeta in Hbase.
  destruct (_ensure_valid_access_token _ _ _ _ _) as [[[]|e] s1] eqn:E.
  - destruct (request_after_check method endpoint kwargs s s1 E) as (_ & Hself & _).
    now rewrite Hself.
  - now rewrite (request_check_raises method endpoint kwargs s e s1 E).
Qed.

(** C10: [get_measurement(bypass)] issues a GET to
    [service/cubic/secure/<serial>/measurement/<0|1>] and
    [get_configuration(bypass)] a GET to [.../configuration/<0|1>], the
    last segment being [1] for [bypass=True] and [0] for [bypass=False];
    the two values of [bypass] give different URLs; the client is its
    serial number and nothing else; and nothing is cached: asked twice in
    a row, the client sends the GET twice. *)
Theorem cubic_client_paths (this : CubicClient.t) (bypass : bool) :
  let sn := CubicClient._serial_number this in
  let flag := if bypass then "1" else "0" in
  let get_measurement := CubicClient.get_measurement serve clock repr_other this bypass in
  let url := "service/cubic/secure/" +:+ sn +:+ "/measurement/" +:+ flag in
  issues get_measurement "GET" url
  /\ issues (CubicClient.get_configuration serve clock repr_other this bypass)
       "GET" ("service/cubic/secure/" +:+ sn +:+ "/configuration/" +:+ flag)
  /\ (forall base : string,
        base +:+ "/" +:+ "service/cubic/secure/" +:+ sn +:+ "/measurement/1"
        <> base +:+ "/" +:+ "service/cubic/secure/" +:+ sn +:+ "/measurement/0"
        /\ base +:+ "/" +:+ "service/cubic/secure/" +:+ sn +:+ "/configuration/1"
           <> base +:+ "/" +:+ "service/cubic/secure/" +:+ sn +:+ "/configuration/0")
  /\ this = CubicClient.Mk sn
  /\ (forall s,
        let s' := (get_measurement s).2 in
        is_access_token_expired clock s = (Ok false, s) ->
        is_access_token_expired clock s' = (Ok false, s') ->
        wire (sent (get_measurement s').2)
        = wire (sent s)
          ++ [("GET", _base_url (self s) +:+ "/" +:+ url);
              ("GET", _base_url (self s) +:+ "/" +:+ url)]).
Proof.
  cbv zeta.
  assert (Hm : issues (CubicClient.get_measurement serve clock repr_other this bypass)
                 "GET" ("service/cubic/secure/" +:+ CubicClient._serial_number this
                        +:+ "/measurement/" +:+ (if bypass then "1" else "0"))).
  { unfold CubicClient.get_measurement. cbv zeta.
    apply request_issues. reflexivity. }
  split; [exact Hm|]. split; [|split; [|split]].
  - unfold CubicClient.get_configuration. cbv zeta.
    apply request_issues. reflexivity.
  - intros base. split; intros H;
      do 4 apply append_cancel_l in H; discriminate H.
  - now destruct this.
  - intros s He He'.
    destruct (issues_not_expired _ _ _ s Hm He) as (c & Hs & Hc1 & Hc2).
    destruct (issues_not_expired _ _ _ _ Hm He') as (c' & Hs' & Hc1' & Hc2').
    rewrite Hs', Hs. unfold wire. rewrite !map_app. cbn [map].
    rewrite Hc1, Hc2, Hc1', Hc2'.
    unfold CubicClient.get_measurement at 1. cbv zeta.
    rewrite request_base_url, <- app_assoc. reflexivity.
Qed.

(** ** The user client and its cached id *)

Lemma lookups_snoc base (l : list Call) (c : Call) :
  lookups base (l ++ [c])
  = (lookups base l + (if is_lookup base c then 1 else 0))%nat.
Proof.
  unfold lookups. rewrite filter_app, length_app. f_equal.
  destruct (is_lookup base c) eqn:E.
  - now rewrite filter_cons_True.
  - rewrite filter_cons_False; [reflexivity|]. congruence.
Qed.

Lemma refresh_call_not_lookup base this :
  is_lookup base (refresh_call repr_other this) = false.
Proof. reflexivity. Qed.

(** Whether [request(method, endpoint)] is the user-id lookup. *)
Definition lookup_endpoint (method endpoint : string) : bool :=
  String.eqb method "GET" && String.eqb (lstrip_slash endpoint) "auth/auth/user".

Lemma request_call_is_lookup this method endpoint kwargs :
  is_lookup (_base_url this) (request_call repr_other this method endpoint kwargs)
  = lookup_endpoint method endpoint.
Proof.
  unfold is_lookup, lookup_endpoint, request_call. cbn [c_method c_url].
  f_equal.
  destruct (String.eqb (lstrip_slash endpoint) "auth/auth/user") eqn:E.
  - apply String.eqb_eq in E. rewrite E. apply String.eqb_refl.
  - apply String.eqb_neq. intros H. apply String.eqb_neq in E. apply E.
    apply append_cancel_l in H. now injection H.
Qed.

(** The lookups a [request] adds to the log: one when it is the lookup
    endpoint and the token check passed, none otherwise. *)
Lemma request_lookups method endpoint kwargs s :
  let base := _base_url (self s) in
  lookups base (sent (request serve clock repr_other method endpoint kwargs s).2)
  = (lookups base (sent s)
     + match _ensure_valid_access_token serve clock repr_other false s with
       | (Ok _, _) => if lookup_endpoint method endpoint then 1 else 0
       | (Raise _, _) => 0
       end)%nat.
Proof.
  cbv zeta.
  pose proof (ensure_effect s) as [Hbase Hsent]. cbv zeta in Hbase, Hsent.
  assert (Hpre : lookups (_base_url (self s))
                   (sent (_ensure_valid_access_token serve clock repr_other false s).2)
                 = lookups (_base_url (self s)) (sent s)).
  { destruct Hsent as [-> | ->]; [reflexivity|].
    rewrite lookups_snoc, refresh_call_not_lookup. lia. }
  destruct (_ensure_valid_access_token _ _ _ _ _) as [[[]|e] s1] eqn:E;
    cbn [snd] in Hbase, Hpre.
  - destruct (request_after_check method endpoint kwargs s s1 E) as (Hs & _).
    rewrite Hs, lookups_snoc, Hpre, <- Hbase, request_call_is_lookup. reflexivity.
  - rewrite (request_check_raises method endpoint kwargs s e s1 E). cbn [snd].
    rewrite Hpre. lia.
Qed.

(** A successful [get_user_id] has sent exactly one lookup. *)
Lemma get_user_id_lookups s uid s1 :
  get_user_id serve clock repr_other s = (Ok uid, s1) ->
  lookups (_base_url (self s)) (sent s1) = S (lookups (_base_url (self s)) (sent s))
  /\ _base_url (self s1) = _base_url (self s).
Proof.
  unfold get_user_id. rewrite bind_run.
  pose proof (request_lookups "GET" "/auth/auth/user" no_kwargs s) as Hl.
  pose proof (request_base_url "GET" "/auth/auth/user" no_kwargs s) as Hb.
  cbv zeta in Hl.
  destruct (request _ _ _ _ _ _ s) as [[user|e] s2] eqn:E; [|discriminate].
  cbn [snd] in Hl, Hb. unfold lift. intros H. injection H as _ <-.
  split; [|exact Hb]. rewrite Hl.
  rewrite request_run in E.
  destruct (_ensure_valid_access_token _ _ _ _ _) as [[[]|e] s1']; [|discriminate].
  change (lookup_endpoint "GET" "/auth/auth/user") with true.
  cbv beta iota. lia.
Qed.

Lemma endpoint_not_lookup (u : UserClient.t) data_type bypass :
  lookup_endpoint "GET" (UserClient.endpoint repr_other u data_type bypass) = false.
Proof. reflexivity. Qed.

(** C6, as the code has it.  A call on an instance that holds a truthy
    id leaves the instance as it is and sends no lookup.  A call on an
    instance that holds no id (or a falsy one) looks the id up: when the
    lookup succeeds, exactly one lookup was sent, the instance now holds
    the id received, and the data request that follows sends no further
    lookup; when the lookup raises, the error is passed on and nothing is
    cached.  The data request is a GET to
    [service/users/user/<id>/<data type>/<0|1>], with [1] for
    [bypass=True] and [0] for [bypass=False]; [get_structure] and
    [get_information] are this operation at the data types [structure]
    and [information]. *)
Theorem user_id_memoized (data_type : string) (bypass : bool) (this : UserClient.t) s :
  let get := UserClient._get_user_data serve clock repr_other data_type bypass in
  let base := _base_url (self s) in
  let fetch (u : UserClient.t) :=
    request serve clock repr_other "GET"
      (UserClient.endpoint repr_other u data_type bypass) no_kwargs in
  (truthy (UserClient._user_id this) = true ->
     get this s = ((fetch this s).1, this, (fetch this s).2)
     /\ lookups base (sent (get this s).2) = lookups base (sent s))
  /\ (truthy (UserClient._user_id this) = false ->
      forall uid s1, get_user_id serve clock repr_other s = (Ok uid, s1) ->
        let this1 := UserClient.Mk uid in
        lookups base (sent s1) = S (lookups base (sent s))
        /\ get this s = ((fetch this1 s1).1, this1, (fetch this1 s1).2)
        /\ lookups base (sent (get this s).2) = S (lookups base (sent s)))
  /\ (truthy (UserClient._user_id this) = false ->
      forall e s1, get_user_id serve clock repr_other s = (Raise e, s1) ->
        get this s = (Raise e, this, s1))
  /\ (forall u : UserClient.t,
        issues (fetch u) "GET"
          ("service/users/user/" +:+ py_str repr_other (UserClient._user_id u)
           +:+ "/" +:+ data_type +:+ "/" +:+ (if bypass then "1" else "0")))
  /\ UserClient.get_structure serve clock repr_other bypass
     = UserClient._get_user_data serve clock repr_other "structure" bypass
  /\ UserClient.get_information serve clock repr_other bypass
     = UserClient._get_user_data serve clock repr_other "information" bypass.
Proof.
  cbv zeta. split; [|split; [|split; [|split; [|split]]]].
  - intros Ht. unfold UserClient._get_user_data. rewrite Ht. cbn [negb].
    destruct (request _ _ _ _ _ _ s) as [r s'] eqn:E. cbn [fst snd].
    split; [reflexivity|].
    pose proof (request_lookups "GET"
      (UserClient.endpoint repr_other this data_type bypass) no_kwargs s) as Hl.
    cbv zeta in Hl. rewrite E, endpoint_not_lookup in Hl. cbn [snd] in Hl.
    rewrite Hl. destruct (_ensure_valid_access_token _ _ _ _ _) as [[] ?]; lia.
  - intros Ht uid s1 Hid.
    destruct (get_user_id_lookups s uid s1 Hid) as [Hl1 Hb1].
    split; [exact Hl1|].
    assert (Hget : UserClient._get_user_data serve clock repr_other data_type bypass this s
                   = ((request serve clock repr_other "GET"
                         (UserClient.endpoint repr_other (UserClient.Mk uid) data_type bypass)
                         no_kwargs s1).1, UserClient.Mk uid,
                      (request serve clock repr_other "GET"
                         (UserClient.endpoint repr_other (UserClient.Mk uid) data_type bypass)
                         no_kwargs s1).2)).
    { unfold UserClient._get_user_data. rewrite Ht, Hid. cbn [negb].
      now destruct (request _ _ _ _ _ _ s1). }
    split; [exact Hget|]. rewrite Hget. cbn [snd].
    pose proof (request_lookups "GET"
      (UserClient.endpoint repr_other (UserClient.Mk uid) data_type bypass)
      no_kwargs s1) as Hl.
    cbv zeta in Hl. rewrite endpoint_not_lookup, Hb1 in Hl.
    rewrite Hl, Hl1. destruct (_ensure_valid_access_token _ _ _ _ _) as [[] ?]; lia.
  - intros Ht e s1 Hid. unfold UserClient._get_user_data.
    now rewrite Ht, Hid.
  - intros u. apply request_issues. reflexivity.
  - reflexivity.
  - reflexivity.
Qed.

(** ** More on [request]: what it returns *)

(** X1: once the token check has passed, the outcome of [request] is
    decided by the response alone: the parsed JSON body, whatever its
    shape, for status 200; [ClientResponseError] with the status and a
    message made of the status and the body text for any other status;
    the JSON error for a 200 whose body is not JSON.  Sending the request
    never touches the client. *)
Theorem request_result method endpoint kwargs s s1 :
  _ensure_valid_access_token serve clock repr_other false s = (Ok tt, s1) ->
  let c := request_call repr_other (self s1) method endpoint kwargs in
  let resp := (serve (remote s1) c).2 in
  let out := request serve clock repr_other method endpoint kwargs s in
  self out.2 = self s1
  /\ (status resp = 200 -> forall v, json resp = Some v -> out.1 = Ok v)
  /\ (status resp = 200 -> json resp = None -> out.1 = Raise JSONError)
  /\ (status resp <> 200 ->
      out.1 = Raise (ClientResponseError (status resp)
                       ("Failed to execute request " +:+ str_of_Z (status resp)
                        +:+ " - " +:+ text resp))).
Proof.
  intros H. cbv zeta. rewrite request_run, H. cbv zeta.
  split; [|split; [|split]].
  - destruct (status _ =? 200); [destruct (json _)|]; reflexivity.
  - intros Hst v Hjs. now rewrite Hst, Hjs.
  - intros Hst Hjs. now rewrite Hst, Hjs.
  - intros Hst. apply Z.eqb_neq in Hst. now rewrite Hst.
Qed.

Lemma lstrip_slash_idem (e : string) : lstrip_slash (lstrip_slash e) = lstrip_slash e.
Proof.
  induction e as [|ch e IH]; [reflexivity|].
  cbn [lstrip_slash].
  destruct ch as [[] [] [] [] [] [] [] []]; try reflexivity; exact IH.
Qed.

Lemma lstrip_slash_no_slash (e rest : string) : lstrip_slash e <> String "/" rest.
Proof.
  induction e as [|ch e IH]; [discriminate|].
  cbn [lstrip_slash].
  destruct ch as [[] [] [] [] [] [] [] []]; try discriminate; exact IH.
Qed.

(** X2: leading slashes of the endpoint do not matter.  [request] with
    one more leading slash, or with all of them removed, is the same
    computation, and the path put after [<base url>/] never starts with a
    slash. *)
Theorem request_leading_slashes method endpoint kwargs s :
  request serve clock repr_other method ("/" +:+ endpoint) kwargs s
  = request serve clock repr_other method endpoint kwargs s
  /\ request serve clock repr_other method (lstrip_slash endpoint) kwargs s
     = request serve clock repr_other method endpoint kwargs s
  /\ (forall this, exists path,
        c_url (request_call repr_other this method endpoint kwargs)
        = _base_url this +:+ "/" +:+ path
        /\ forall rest, path <> String "/" rest).
Proof.
  split; [reflexivity|]. split.
  - rewrite !request_run. unfold request_call.
    now rewrite lstrip_slash_idem.
  - intros this. exists (lstrip_slash endpoint). split; [reflexivity|].
    intros rest. apply lstrip_slash_no_slash.
Qed.

(** ** The token check with the server probe *)

Lemma ensure_server_run s :
  _ensure_valid_access_token serve clock repr_other true s =
  match access_token_expired_at (clock (remote s)) (_access_token_expire (self s)) with
  | Ok true => refresh_token serve repr_other s
  | Ok false =>
      match is_current_token_valid serve repr_other s with
      | (Ok true, s1) => (Ok tt, s1)
      | (Ok false, s1) => refresh_token serve repr_other s1
      | (Raise e, s1) => (Raise e, s1)
      end
  | Raise e => (Raise e, s)
  end.
Proof.
  unfold _ensure_valid_access_token. rewrite bind_run.
  rewrite is_access_token_expired_run.
  destruct (access_token_expired_at _ _) as [[]|]; try reflexivity.
  rewrite bind_run.
  destruct (is_current_token_valid _ _ _) as [[[]|] ?]; reflexivity.
Qed.

(** X3: [_ensure_valid_access_token(check_server=True)].  A locally
    expired token is refreshed without asking the server.  Otherwise the
    probe is sent: answered with 200 nothing more happens and the client
    is unchanged; answered with anything else a refresh follows.  With no
    access token stored the refresh follows without a probe. *)
Theorem ensure_with_server_check s :
  let out := _ensure_valid_access_token serve clock repr_other true s in
  let pc := probe_call repr_other (self s) in
  let s1 := after_call s pc (serve (remote s) pc).1 in
  (is_access_token_expired clock s = (Ok true, s) ->
     out = refresh_token serve repr_other s)
  /\ (is_access_token_expired clock s = (Ok false, s) ->
      truthy (_access_token (self s)) = true ->
      (status (serve (remote s) pc).2 = 200 -> out = (Ok tt, s1))
      /\ (status (serve (remote s) pc).2 <> 200 ->
          out = refresh_token serve repr_other s1))
  /\ (is_access_token_expired clock s = (Ok false, s) ->
      truthy (_access_token (self s)) = false ->
      out = refresh_token serve repr_other s).
Proof.
  cbv zeta. rewrite ensure_server_run, is_access_token_expired_run.
  split; [|split].
  - intros H. injection H as H. now rewrite H.
  - intros H Ht. injection H as H. rewrite H, is_current_token_valid_run, Ht.
    cbv zeta. split.
    + intros Hst. now rewrite Hst.
    + intros Hst. apply Z.eqb_neq in Hst. now rewrite Hst.
  - intros H Ht. injection H as H.
    now rewrite H, is_current_token_valid_run, Ht.
Qed.

(** ** [get_user_id] *)

(** X4: [get_user_id] sends, after the token check, one GET to
    [<base url>/auth/auth/user].  From a 200 response with a JSON object
    it returns the value under [userId], of whatever type; it raises
    [KeyError] when the object has no [userId], [TypeError] when the body
    is JSON but not an object, and passes on the error of [request] for
    any other status. *)
Theorem get_user_id_result s s1 :
  _ensure_valid_access_token serve clock repr_other false s = (Ok tt, s1) ->
  let c := request_call repr_other (self s1) "GET" "/auth/auth/user" no_kwargs in
  let resp := (serve (remote s1) c).2 in
  let out := get_user_id serve clock repr_other s in
  sent out.2 = sent s1 ++ [c]
  /\ c_method c = "GET"
  /\ c_url c = _base_url (self s) +:+ "/auth/auth/user"
  /\ (status resp = 200 -> forall d uid,
        json resp = Some (PDict d) -> d !! "userId" = Some uid -> out.1 = Ok uid)
  /\ (status resp = 200 -> forall d,
        json resp = Some (PDict d) -> d !! "userId" = None ->
        out.1 = Raise (KeyError "userId"))
  /\ (status resp = 200 -> forall v,
        json resp = Some v -> (forall d, v <> PDict d) -> out.1 = Raise TypeError)
  /\ (status resp <> 200 ->
      out.1 = Raise (ClientResponseError (status resp)
                       ("Failed to execute request " +:+ str_of_Z (status resp)
                        +:+ " - " +:+ text resp))).
Proof.
  intros H. cbv zeta.
  pose proof (ensure_effect s) as [Hbase _]. cbv zeta in Hbase.
  rewrite H in Hbase. cbn [snd] in Hbase.
  unfold get_user_id. rewrite bind_run, request_run, H. cbv zeta.
  split; [|split; [reflexivity|split; [|split; [|split; [|split]]]]].
  - destruct (status _ =? 200); [destruct (json _) as [v|]|]; reflexivity.
  - unfold request_call. cbn [c_url]. now rewrite Hbase.
  - intros Hst d uid Hjs Hu. rewrite Hst, Hjs. cbn. now rewrite Hu.
  - intros Hst d Hjs Hu. rewrite Hst, Hjs. cbn. now rewrite Hu.
  - intros Hst v Hjs Hv. rewrite Hst, Hjs. cbn.
    destruct v; try reflexivity. now destruct (Hv d).
  - intros Hst. apply Z.eqb_neq in Hst. now rewrite Hst.
Qed.

(** ** The valve state read-out *)

(** X5: [get_valve] issues a GET to [control/cubic/secure/<serial>/valve];
    that URL differs from the two URLs [set_valve_state] posts to, which
    differ from each other. *)
Theorem get_valve_path (this : CubicAccessClient.t) :
  let sn := CubicAccessClient._serial_number this in
  issues (CubicAccessClient.get_valve serve clock repr_other this)
    "GET" ("control/cubic/secure/" +:+ sn +:+ "/valve")
  /\ (forall base : string,
        let valve := base +:+ "/" +:+ "control/cubic/secure/" +:+ sn +:+ "/valve" in
        let open := base +:+ "/" +:+ "control/cubic/secure/" +:+ sn +:+ "/valve/open" in
        let close := base +:+ "/" +:+ "control/cubic/secure/" +:+ sn +:+ "/valve/close" in
        valve <> open /\ valve <> close /\ open <> close).
Proof.
  cbv zeta. split.
  - unfold CubicAccessClient.get_valve. cbv zeta.
    apply request_issues. reflexivity.
  - intros base. repeat split; intros H;
      do 4 apply append_cancel_l in H; discriminate H.
Qed.

(** ** No retries *)

Lemma request_sent_shape method endpoint kwargs s :
  let out := request serve clock repr_other method endpoint kwargs s in
  let rc := refresh_call repr_other (self s) in
  let c := request_call repr_other (self out.2) method endpoint kwargs in
  ((exists e, out.1 = Raise e) /\ (sent out.2 = sent s \/ sent out.2 = sent s ++ [rc]))
  \/ sent out.2 = sent s ++ [c]
  \/ sent out.2 = sent s ++ [rc; c].
Proof.
  cbv zeta.
  pose proof (ensure_effect s) as [_ Hsent]. cbv zeta in Hsent.
  destruct (_ensure_valid_access_token _ _ _ _ _) as [[[]|e] s1] eqn:E;
    cbn [snd] in Hsent.
  - destruct (request_after_check method endpoint kwargs s s1 E) as (Hs & Hself & _).
    right. rewrite Hs, Hself.
    destruct Hsent as [-> | ->]; [now left | right].
    now rewrite <- app_assoc.
  - left. rewrite (request_check_raises method endpoint kwargs s e s1 E).
    cbn [fst snd]. split; [eauto|].
    destruct Hsent as [-> | ->]; [now left | now right].
Qed.

(** X6: [request] never retries.  Whatever the remote answers, it adds to
    the log nothing, or the refresh call alone, or the request alone, or
    the refresh call followed by the request; when it returns a value the
    request was sent, as last call.  A call of [_get_user_data] therefore
    sends at most four calls. *)
Theorem request_sends_at_most_two method endpoint kwargs s :
  let out := request serve clock repr_other method endpoint kwargs s in
  let rc := refresh_call repr_other (self s) in
  let c := request_call repr_other (self out.2) method endpoint kwargs in
  (sent out.2 = sent s \/ sent out.2 = sent s ++ [rc]
   \/ sent out.2 = sent s ++ [c] \/ sent out.2 = sent s ++ [rc; c])
  /\ (forall v, out.1 = Ok v ->
        sent out.2 = sent s ++ [c] \/ sent out.2 = sent s ++ [rc; c])
  /\ (forall data_type bypass (u : UserClient.t),
        exists extra,
          sent (UserClient._get_user_data serve clock repr_other
                  data_type bypass u s).2 = sent s ++ extra
          /\ (length extra <= 4)%nat).
Proof.
  cbv zeta. split; [|split].
  - destruct (request_sent_shape method endpoint kwargs s)
      as [[_ [H|H]] | [H|H]]; auto.
  - intros v Hv.
    destruct (request_sent_shape method endpoint kwargs s)
      as [[[e He] _] | [H|H]]; auto. congruence.
  - intros data_type bypass u.
    assert (Hreq : forall m e k s0, exists extra,
               sent (request serve clock repr_other m e k s0).2 = sent s0 ++ extra
               /\ (length extra <= 2)%nat).
    { intros m e k s0.
      destruct (request_sent_shape m e k s0) as [[_ [H|H]] | [H|H]].
      - exists []. rewrite H, app_nil_r. split; [reflexivity | cbn; lia].
      - eexists. split; [exact H | cbn; lia].
      - eexists. split; [exact H | cbn; lia].
      - eexists. split; [exact H | cbn; lia]. }
    unfold UserClient._get_user_data.
    destruct (negb (truthy (UserClient._user_id u))).
    + unfold get_user_id. rewrite bind_run.
      destruct (Hreq "GET" "/auth/auth/user" no_kwargs s) as (x1 & H1 & L1).
      destruct (request _ _ _ _ _ _ s) as [[user|e] s1]; cbn [snd] in H1.
      * unfold lift. destruct (py_getitem user "userId") as [uid|e].
        -- destruct (Hreq "GET"
                       (UserClient.endpoint repr_other (UserClient.Mk uid) data_type bypass)
                       no_kwargs s1) as (x2 & H2 & L2).
           destruct (request _ _ _ _ _ _ s1) as [r s2]. cbn [snd] in H2 |- *.
           exists (x1 ++ x2). rewrite H2, H1, app_assoc.
           split; [reflexivity | rewrite length_app; lia].
        -- exists x1. cbn [snd]. split; [exact H1 | lia].
      * exists x1. cbn [snd]. split; [exact H1 | lia].
    + destruct (Hreq "GET" (UserClient.endpoint repr_other u data_type bypass)
                  no_kwargs s) as (x & H & L).
      destruct (request _ _ _ _ _ _ s) as [r s1]. cbn [snd] in H |- *.
      exists x. split; [exact H | lia].
Qed.

(** ** Sequences of operations *)

(** A login answered with status 200 and a JSON object. *)
Lemma login_ok email password s d :
  let lc := login_call (self s) email password in
  status (serve (remote s) lc).2 = 200 ->
  json (serve (remote s) lc).2 = Some (PDict d) ->
  login serve email password s =
  (Ok (PDict d), with_self (with_tokens d (self s))
                   (after_call s lc (serve (remote s) lc).1)).
Proof.
  cbv zeta. intros Hst Hjs. rewrite login_run. cbv zeta.
  now rewrite Hst, Hjs.
Qed.

(** X7: a request that follows a successful login sends no refresh
    when the expiry received is not zero and not below the binary64 sum
    [time.time() + 60] computed when the request starts: the log is the
    login call and then the request, which carries the access token of
    the login response. *)
Theorem login_then_request email password method endpoint kwargs s d (x S : Q) :
  let lc := login_call (self s) email password in
  let s1 := (login serve email password s).2 in
  status (serve (remote s) lc).2 = 200 ->
  json (serve (remote s) lc).2 = Some (PDict d) ->
  py_num (default PNone (d !! "accessTokenExpire")) = Some (XFin x) ->
  (~ x == 0)%Q ->
  float_value (clock (remote s1) + 60)%float = XFin S ->
  (S <= x)%Q ->
  let c := request_call repr_other (with_tokens d (self s)) method endpoint kwargs in
  sent (request serve clock repr_other method endpoint kwargs s1).2
  = sent s ++ [lc; c]
  /\ headers_of c !! "Authorization"
     = Some ("Bearer " +:+ py_str repr_other (default PNone (d !! "accessToken"))).
Proof.
  cbv zeta. intros Hst Hjs Hx Hnz HS Hle.
  rewrite (login_ok email password s d Hst Hjs) in *. cbn [snd] in *.
  set (s1 := with_self _ _) in *.
  assert (He : is_access_token_expired clock s1 = (Ok false, s1)).
  { rewrite is_access_token_expired_run.
    change (_access_token_expire (self s1)) with (default PNone (d !! "accessTokenExpire")).
    rewrite (expired_at_num _ _ _ _ Hx HS).
    destruct (Qeq_bool x 0) eqn:E; [apply Qeq_bool_iff in E; contradiction|].
    apply Qgt_bool_false_iff in Hle. now rewrite Hle. }
  destruct (request_after_check method endpoint kwargs s1 s1 (ensure_not_expired s1 He))
    as (Hs & _).
  rewrite Hs. subst s1. cbn [with_self after_call sent self].
  rewrite <- app_assoc. split; [reflexivity|].
  unfold headers_of, request_call. cbn [c_kwargs kw_headers default].
  apply lookup_insert_eq.
Qed.

(** X8: a login response that carries no usable [refreshToken] (key
    missing, [null] or empty) leaves the session without a refresh token:
    the login itself succeeds, but every later [refresh_token] raises
    [ValueError] without sending anything, and so does every [request]
    made once the access token counts as expired. *)
Theorem login_without_refresh_token email password s d :
  let lc := login_call (self s) email password in
  let s1 := (login serve email password s).2 in
  status (serve (remote s) lc).2 = 200 ->
  json (serve (remote s) lc).2 = Some (PDict d) ->
  truthy (default PNone (d !! "refreshToken")) = false ->
  (login serve email password s).1 = Ok (PDict d)
  /\ (forall s2, self s2 = self s1 ->
        refresh_token serve repr_other s2
        = (Raise (ValueError "No refresh token available. Please login first."), s2))
  /\ (forall s2 method endpoint kwargs,
        self s2 = self s1 ->
        is_access_token_expired clock s2 = (Ok true, s2) ->
        request serve clock repr_other method endpoint kwargs s2
        = (Raise (ValueError "No refresh token available. Please login first."), s2)).
Proof.
  cbv zeta. intros Hst Hjs Ht.
  rewrite (login_ok email password s d Hst Hjs). cbn [fst snd].
  split; [reflexivity|].
  assert (Hr : forall s2,
             self s2 = self (with_self (with_tokens d (self s))
                               (after_call s (login_call (self s) email password)
                                  (serve (remote s) (login_call (self s) email password)).1)) ->
             refresh_token serve repr_other s2
             = (Raise (ValueError "No refresh token available. Please login first."), s2)).
  { intros s2 Hs2. rewrite refresh_token_run, Hs2.
    cbn [with_self self with_tokens _refresh_token]. now rewrite Ht. }
  split; [exact Hr|].
  intros s2 method endpoint kwargs Hs2 He.
  apply request_check_raises. rewrite ensure_run.
  rewrite is_access_token_expired_run in He. injection He as He.
  rewrite He. now apply Hr.
Qed.

(** X9: a stored expiry that is truthy but not a number (a date string,
    say) makes the expiry test raise [TypeError]; [request] then raises
    [TypeError] as well, before anything is sent and without touching the
    store. *)
Theorem request_non_numeric_expiry method endpoint kwargs s :
  truthy (_access_token_expire (self s)) = true ->
  py_num (_access_token_expire (self s)) = None ->
  is_access_token_expired clock s = (Raise TypeError, s)
  /\ request serve clock repr_other method endpoint kwargs s = (Raise TypeError, s).
Proof.
  intros Ht Hn.
  assert (He : access_token_expired_at (clock (remote s)) (_access_token_expire (self s))
               = Raise TypeError).
  { unfold access_token_expired_at, py_float_gt. now rewrite Ht, Hn. }
  split.
  - now rewrite is_access_token_expired_run, He.
  - apply request_check_raises. now rewrite ensure_run, He.
Qed.

(** X10: a refresh is not undone when the request that triggered it
    fails: after an expired token was refreshed and the request was then
    answered with another status than 200, [request] raises the request's
    error and the client holds the new token pair. *)
Theorem failed_request_keeps_refreshed_tokens method endpoint kwargs s d :
  let rc := refresh_call repr_other (self s) in
  let s1 := with_self (with_tokens d (self s))
              (after_call s rc (serve (remote s) rc).1) in
  let c := request_call repr_other (with_tokens d (self s)) method endpoint kwargs in
  let resp := (serve (remote s1) c).2 in
  is_access_token_expired clock s = (Ok true, s) ->
  truthy (_refresh_token (self s)) = true ->
  status (serve (remote s) rc).2 = 200 ->
  json (serve (remote s) rc).2 = Some (PDict d) ->
  status resp <> 200 ->
  request serve clock repr_other method endpoint kwargs s
  = (Raise (ClientResponseError (status resp)
              ("Failed to execute request " +:+ str_of_Z (status resp)
               +:+ " - " +:+ text resp)),
     after_call s1 c (serve (remote s1) c).1)
  /\ self (request serve clock repr_other method endpoint kwargs s).2
     = with_tokens d (self s).
Proof.
  cbv zeta. intros He Ht Hst Hjs Hst2.
  rewrite is_access_token_expired_run in He. injection He as He.
  assert (Hens : _ensure_valid_access_token serve clock repr_other false s =
                 (Ok tt, with_self (with_tokens d (self s))
                           (after_call s (refresh_call repr_other (self s))
                              (serve (remote s) (refresh_call repr_other (self s))).1))).
  { rewrite ensure_run, He. now apply refresh_token_ok. }
  rewrite request_run, Hens. cbv zeta.
  destruct (status _ =? 200) eqn:E.
  - apply Z.eqb_eq in E. now destruct Hst2.
  - split; reflexivity.
Qed.

(** ** Devices are kept apart *)

Lemma length_append_s (x y : string) :
  String.length (x +:+ y) = (String.length x + String.length y)%nat.
Proof.
  induction x as [|ch x IH]; [reflexivity|].
  change (S (String.length (x +:+ y)) = S (String.length x + String.length y)).
  now rewrite IH.
Qed.

Lemma append_cancel_r (x y suf : string) : x +:+ suf = y +:+ suf -> x = y.
Proof.
  revert y. induction x as [|ch x IH]; intros y H.
  - destruct y as [|ch' y]; [reflexivity|].
    apply (f_equal String.length) in H.
    rewrite !length_append_s in H. cbn in H. lia.
  - destruct y as [|ch' y].
    + apply (f_equal String.length) in H.
      rewrite !length_append_s in H. cbn in H. lia.
    + cbn in H. injection H as -> H. f_equal. now apply IH.
Qed.

Lemma cubic_measurement_issues (this : CubicClient.t) (bypass : bool) :
  issues (CubicClient.get_measurement serve clock repr_other this bypass)
    "GET" ("service/cubic/secure/" +:+ CubicClient._serial_number this
           +:+ "/measurement/" +:+ (if bypass then "1" else "0")).
Proof.
  unfold CubicClient.get_measurement. cbv zeta.
  apply request_issues. reflexivity.
Qed.

Lemma valve_state_issues (this : CubicAccessClient.t) (state : bool) :
  issues (CubicAccessClient.set_valve_state serve clock repr_other this state)
    "POST" ("control/cubic/secure/" +:+ CubicAccessClient._serial_number this
            +:+ "/valve/" +:+ (if state then "open" else "close")).
Proof.
  unfold CubicAccessClient.set_valve_state. cbv zeta.
  apply request_issues. reflexivity.
Qed.

(** X11: requests for two devices never coincide.  On a session whose
    token is not expired, [get_measurement] for two clients with
    different serial numbers puts different URLs on the wire; likewise
    for [set_valve_state]. *)
Theorem serial_numbers_separate_requests s (bypass state : bool) :
  is_access_token_expired clock s = (Ok false, s) ->
  (forall a b : CubicClient.t,
     CubicClient._serial_number a <> CubicClient._serial_number b ->
     wire (sent (CubicClient.get_measurement serve clock repr_other a bypass s).2)
     <> wire (sent (CubicClient.get_measurement serve clock repr_other b bypass s).2))
  /\ (forall a b : CubicAccessClient.t,
     CubicAccessClient._serial_number a <> CubicAccessClient._serial_number b ->
     wire (sent (CubicAccessClient.set_valve_state serve clock repr_other a state s).2)
     <> wire (sent (CubicAccessClient.set_valve_state serve clock repr_other b state s).2)).
Proof.
  intros He. split.
  - intros a b Hne H. apply Hne.
    pose proof (cubic_measurement_issues a bypass) as Ha.
    pose proof (cubic_measurement_issues b bypass) as Hb.
    destruct (issues_not_expired _ _ _ s Ha He) as (ca & Hsa & _ & Hua).
    destruct (issues_not_expired _ _ _ s Hb He) as (cb & Hsb & _ & Hub).
    rewrite Hsa, Hsb in H. unfold wire in H. rewrite !map_app in H.
    apply app_inv_head in H. cbn [map] in H. injection H as _ H.
    rewrite Hua, Hub in H. do 3 apply append_cancel_l in H.
    now apply append_cancel_r in H.
  - intros a b Hne H. apply Hne.
    pose proof (valve_state_issues a state) as Ha.
    pose proof (valve_state_issues b state) as Hb.
    destruct (issues_not_expired _ _ _ s Ha He) as (ca & Hsa & _ & Hua).
    destruct (issues_not_expired _ _ _ s Hb He) as (cb & Hsb & _ & Hub).
    rewrite Hsa, Hsb in H. unfold wire in H. rewrite !map_app in H.
    apply app_inv_head in H. cbn [map] in H. injection H as _ H.
    rewrite Hua, Hub in H. do 3 apply append_cancel_l in H.
    now apply append_cancel_r in H.
Qed.

(** ** Token rotation *)

(** X12: a refresh uses what the previous refresh stored.  After a
    refresh answered with status 200 and a JSON object that carries a
    refresh token, the next [refresh_token] sends that refresh token in
    its body and the new access token in its bearer header; the tokens
    held before the first refresh are not sent again. *)
Theorem refresh_uses_latest_tokens s d :
  let rc := refresh_call repr_other (self s) in
  let s1 := (refresh_token serve repr_other s).2 in
  truthy (_refresh_token (self s)) = true ->
  status (serve (remote s) rc).2 = 200 ->
  json (serve (remote s) rc).2 = Some (PDict d) ->
  truthy (default PNone (d !! "refreshToken")) = true ->
  exists c : Call,
    sent (refresh_token serve repr_other s1).2 = sent s ++ [rc; c]
    /\ c_method c = "POST"
    /\ c_url c = _base_url (self s) +:+ "/auth/auth/refresh"
    /\ kw_json (c_kwargs c)
       = Some (PDict {[ "refreshToken" := default PNone (d !! "refreshToken") ]})
    /\ headers_of c !! "Authorization"
       = Some ("Bearer " +:+ py_str repr_other (default PNone (d !! "accessToken"))).
Proof.
  cbv zeta. intros Ht Hst Hjs Ht2.
  rewrite (refresh_token_ok s d Ht Hst Hjs). cbn [snd].
  set (s1 := with_self _ _).
  exists (refresh_call repr_other (self s1)).
  split.
  - rewrite refresh_token_run.
    change (_refresh_token (self s1)) with (default PNone (d !! "refreshToken")).
    rewrite Ht2. cbv zeta.
    assert (Hs1 : sent s1 ++ [refresh_call repr_other (self s1)]
                  = sent s ++ [refresh_call repr_other (self s);
                               refresh_call repr_other (self s1)]).
    { subst s1. cbn [with_self after_call sent]. now rewrite <- app_assoc. }
    destruct (status (serve (remote s1) _).2 =? 200); [|exact Hs1].
    destruct (json (serve (remote s1) _).2) as [data|]; [|exact Hs1].
    now rewrite (proj1 (store_tokens_sent data _)).
  - repeat split.
Qed.

End Properties.

(** * Concrete runs

    The theorems above at concrete inputs, on the scripted remote. *)

Definition base_url : string := "https://link2.lk.nu".

(** A session after a login that was answered with tokens [A1]/[R1]
    expiring at 3600 and 7200, the clock reading [now], and [script]
    still to be served. *)
Definition logged_in (now : float) (script : list Response) : AuthClient.Store Script :=
  AuthClient.MkStore
    (AuthClient.Mk base_url (PStr "A1") (PStr "R1") (PInt 3600) (PInt 7200))
    {| script_now := now; script_left := script |} [].

Definition denied : Response :=
  {| status := 401; text := "bad credentials"; json := None |}.

Lemma login_witness :
  login_call (AuthClient.init base_url) "user@example.com" "secret"
  = MkCall "POST" "https://link2.lk.nu/auth/auth/login"
      (MkKwargs None
         (Some (PDict {[ "email" := PStr "user@example.com";
                         "password" := PStr "secret" ]})) ∅)
  /\ AuthClient.login script_serve "user@example.com" "secret"
       (fresh_store base_url 100 [ok_response (token_body "A1" "R1" 3600 7200)])
     = (Ok (token_body "A1" "R1" 3600 7200),
        AuthClient.MkStore
          (AuthClient.Mk base_url (PStr "A1") (PStr "R1") (PInt 3600) (PInt 7200))
          {| script_now := 100; script_left := [] |}
          [login_call (AuthClient.init base_url) "user@example.com" "secret"])
  /\ AuthClient.login script_serve "user@example.com" "secret"
       (fresh_store base_url 100 [denied])
     = (Raise (ClientResponseError 401 "Login failed: bad credentials"),
        AuthClient.MkStore (AuthClient.init base_url)
          {| script_now := 100; script_left := [] |}
          [login_call (AuthClient.init base_url) "user@example.com" "secret"]).
Proof.
  split; [reflexivity|]. split.
  - refine (proj1 (login_stores_tokens_or_raises script_serve
                     "user@example.com" "secret"
                     (fresh_store base_url 100
                        [ok_response (token_body "A1" "R1" 3600 7200)]))
                  _ _ _); reflexivity.
  - refine (proj2 (login_stores_tokens_or_raises script_serve
                     "user@example.com" "secret"
                     (fresh_store base_url 100 [denied])) _).
    vm_compute. discriminate.
Defined.

Lemma failed_login_or_refresh_witness :
  let s := logged_in 100 [denied] in
  AuthClient.self (AuthClient.login script_serve "user@example.com" "wrong" s).2
  = AuthClient.self s
  /\ AuthClient.self (AuthClient.refresh_token script_serve script_repr s).2
     = AuthClient.self s.
Proof.
  cbv zeta.
  pose proof (failed_login_or_refresh_keeps_tokens script_serve script_now script_repr
                "user@example.com" "wrong" (logged_in 100 [denied]))
    as (Hl & Hr & _).
  cbv zeta in Hl, Hr. split.
  - exact (Hl (ClientResponseError 401 "Login failed: bad credentials") _ eq_refl).
  - exact (Hr (ClientResponseError 401 "Token refresh failed: bad credentials") _ eq_refl).
Defined.

Lemma refresh_token_before_login_witness :
  let s := fresh_store base_url 100 [ok_response (token_body "A2" "R2" 7200 9000)] in
  AuthClient.refresh_token script_serve script_repr s
  = (Raise (ValueError "No refresh token available. Please login first."), s).
Proof.
  cbv zeta. apply refresh_token_before_login. reflexivity.
Defined.

(** Expiry 3600 stored: expired at clock reading 3541 (3601 > 3600), not
    expired at 3539 (3599 < 3600), and not expired at 3540 either
    (3600 = 3600). *)
Lemma is_access_token_expired_witness :
  AuthClient.is_access_token_expired script_now (logged_in 3541 [])
  = (Ok true, logged_in 3541 [])
  /\ AuthClient.is_access_token_expired script_now (logged_in 3539 [])
     = (Ok false, logged_in 3539 [])
  /\ AuthClient.is_access_token_expired script_now (logged_in 3540 [])
     = (Ok false, logged_in 3540 [])
  /\ AuthClient.is_access_token_expired script_now (fresh_store base_url 3539 [])
     = (Ok true, fresh_store base_url 3539 []).
Proof.
  pose proof (is_access_token_expired_margin script_now (logged_in 3541 []))
    as (_ & _ & _ & H1).
  pose proof (is_access_token_expired_margin script_now (logged_in 3539 []))
    as (_ & _ & _ & H2).
  pose proof (is_access_token_expired_margin script_now (logged_in 3540 []))
    as (_ & _ & _ & H3).
  pose proof (is_access_token_expired_margin script_now (fresh_store base_url 3539 []))
    as (_ & _ & H4 & _).
  specialize (H1 (inject_Z 3600) _ eq_refl eq_refl).
  specialize (H2 (inject_Z 3600) _ eq_refl eq_refl).
  specialize (H3 (inject_Z 3600) _ eq_refl eq_refl).
  split; [|split; [|split]].
  - apply (proj1 H1). reflexivity.
  - apply (proj1 (proj2 (proj2 H2))); [discriminate | reflexivity].
  - apply (proj1 (proj2 (proj2 (proj2 H3)))); [discriminate | reflexivity].
  - apply H4. reflexivity.
Defined.

(** A store that holds the given expiry, at the given clock reading. *)
Definition with_expiry (now : float) (expire : pyval) : AuthClient.Store Script :=
  AuthClient.MkStore
    (AuthClient.Mk base_url (PStr "A1") (PStr "R1") expire (PInt 7200))
    {| script_now := now; script_left := [] |} [].

(** Claim C2 fails in three ways.  (1) At a clock reading where
    [now + 60] equals the expiry the token counts as usable
    ([is_access_token_expired] answers [False]), so "strictly before" is
    too strong.  (2) The margin is added in binary64: at the clock
    reading 0.3 (the float [0x1.3333333333333p-2]) and the expiry 60.3
    (the float [0x1.e266666666666p+5]) the expiry is strictly less than
    the exact sum [now + 60], yet the float sum equals the expiry and the
    answer is [False].  (3) A stored expiry of zero counts as no expiry:
    at a clock reading of -100 the expiry 0 is strictly greater than
    [now + 60], yet the answer is [True]. *)
Lemma expiry_boundary_counterexample :
  let s := logged_in 3540 [] in
  let r := with_expiry 0x1.3333333333333p-2 (PFloat 0x1.e266666666666p+5) in
  let z := with_expiry (-100) (PInt 0) in
  let reads (st : AuthClient.Store Script) (now expire : Q) :=
    float_value (script_now (AuthClient.remote st)) = XFin now
    /\ py_num (AuthClient._access_token_expire (AuthClient.self st))
       = Some (XFin expire) in
  (AuthClient.is_access_token_expired script_now s = (Ok false, s)
   /\ exists now expire : Q,
        reads s now expire /\ (now + 60 == expire)%Q /\ ~ (now + 60 < expire)%Q)
  /\ (AuthClient.is_access_token_expired script_now r = (Ok false, r)
      /\ exists now expire : Q, reads r now expire /\ (expire < now + 60)%Q)
  /\ (AuthClient.is_access_token_expired script_now z = (Ok true, z)
      /\ exists now expire : Q, reads z now expire /\ (now + 60 < expire)%Q).
Proof.
  cbv zeta. split; [|split].
  - split; [vm_compute; reflexivity|].
    eexists _, _. split; [split; vm_compute; reflexivity|].
    split; [vm_compute; reflexivity | vm_compute; discriminate].
  - split; [vm_compute; reflexivity|].
    eexists _, _. split; [split; vm_compute; reflexivity|].
    vm_compute. reflexivity.
  - split; [vm_compute; reflexivity|].
    eexists _, _. split; [split; vm_compute; reflexivity|].
    vm_compute. reflexivity.
Qed.

Lemma is_current_token_valid_witness :
  AuthClient.is_current_token_valid script_serve script_repr
    (fresh_store base_url 100 [ok_response PNone])
  = (Ok false, fresh_store base_url 100 [ok_response PNone])
  /\ (AuthClient.is_current_token_valid script_serve script_repr
        (logged_in 100 [ok_response PNone])).1 = Ok true
  /\ (AuthClient.is_current_token_valid script_serve script_repr
        (logged_in 100 [denied])).1 = Ok false
  /\ wire (AuthClient.sent
             (AuthClient.is_current_token_valid script_serve script_repr
                (logged_in 100 [denied])).2)
     = [("GET", "https://link2.lk.nu/auth/validate/token")].
Proof.
  split; [|split; [|split]].
  - apply (proj1 (is_current_token_valid_probe script_serve script_repr
                    (fresh_store base_url 100 [ok_response PNone]))).
    reflexivity.
  - destruct (proj1 (proj2 (is_current_token_valid_probe script_serve script_repr
                              (logged_in 100 [ok_response PNone]))) eq_refl)
      as (b & -> & Hb).
    cbn [fst]. f_equal. apply Hb. reflexivity.
  - destruct (proj1 (proj2 (is_current_token_valid_probe script_serve script_repr
                              (logged_in 100 [denied]))) eq_refl)
      as (b & -> & Hb).
    cbn [fst]. f_equal. destruct b; [|reflexivity].
    assert (H : status denied = 200) by (apply Hb; reflexivity).
    discriminate H.
  - destruct (proj1 (proj2 (is_current_token_valid_probe script_serve script_repr
                              (logged_in 100 [denied]))) eq_refl)
      as (b & -> & _).
    reflexivity.
Defined.

(** A caller passing [Accept] and its own [Authorization]: [Accept] goes
    out unchanged, [Authorization] is the session's bearer token. *)
Definition caller_kwargs : Kwargs :=
  {| kw_headers := Some {[ "Accept" := "application/json";
                           "Authorization" := "Basic abc" ]};
     kw_json := None;
     kw_rest := ∅ |}.

Lemma request_headers_witness :
  let s := logged_in 100 [ok_response (PList [])] in
  let out := AuthClient.request script_serve script_now script_repr
               "GET" "service/ping" caller_kwargs s in
  exists c : Call,
    AuthClient.sent out.2 = [c]
    /\ headers_of c !! "Authorization" = Some "Bearer A1"
    /\ headers_of c !! "Accept" = Some "application/json"
    /\ headers_of c !! "Cookie" = None.
Proof.
  cbv zeta.
  destruct (request_headers script_serve script_now script_repr
              "GET" "service/ping" caller_kwargs
              (logged_in 100 [ok_response (PList [])])
              (logged_in 100 [ok_response (PList [])]) eq_refl)
    as (c & Hs & _ & _ & Ha & Hk & _).
  exists c. split; [exact Hs|]. split; [exact Ha|]. split.
  - rewrite Hk; [reflexivity | discriminate].
  - rewrite Hk; [reflexivity | discriminate].
Defined.

(** An expired token (clock 3541, expiry 3600), a refresh answered with
    new tokens, then the request: two calls, the second one bearing the
    new token. *)
Lemma request_refresh_witness :
  let s := logged_in 3541 [ok_response (token_body "A2" "R2" 7200 9000);
                           ok_response (PList [])] in
  let out := AuthClient.request script_serve script_now script_repr
               "GET" "service/ping" no_kwargs s in
  AuthClient.sent out.2
  = [refresh_call script_repr (AuthClient.self s);
     request_call script_repr
       (AuthClient.Mk base_url (PStr "A2") (PStr "R2") (PInt 7200) (PInt 9000))
       "GET" "service/ping" no_kwargs]
  /\ wire (AuthClient.sent out.2)
     = [("POST", "https://link2.lk.nu/auth/auth/refresh");
        ("GET", "https://link2.lk.nu/service/ping")]
  /\ AuthClient._access_token (AuthClient.self out.2) = PStr "A2".
Proof.
  cbv zeta.
  pose proof (request_refreshes_expired_token script_serve script_now script_repr
                "GET" "service/ping" no_kwargs
                (logged_in 3541 [ok_response (token_body "A2" "R2" 7200 9000);
                                 ok_response (PList [])]))
    as (_ & _ & _ & _ & H & _).
  cbv zeta in H.
  destruct (H eq_refl eq_refl eq_refl _ eq_refl) as (Hs & _ & Ht).
  rewrite Hs, Ht. repeat split.
Defined.

(** Claim C1 fails on a session that holds no refresh token: the token
    is locally expired, yet [request] sends no refresh call (and no call
    at all).  It also fails when the refresh is refused: the refresh call
    is the only call, the original request is never sent. *)
Lemma request_without_refresh_counterexample :
  let s0 := fresh_store base_url 100 [ok_response (PList [])] in
  let s1 := logged_in 3541 [denied; ok_response (PList [])] in
  AuthClient.is_access_token_expired script_now s0 = (Ok true, s0)
  /\ AuthClient.request script_serve script_now script_repr "GET" "service/ping" no_kwargs s0
     = (Raise (ValueError "No refresh token available. Please login first."), s0)
  /\ AuthClient.sent s0 = []
  /\ AuthClient.is_access_token_expired script_now s1 = (Ok true, s1)
  /\ (AuthClient.request script_serve script_now script_repr "GET" "service/ping" no_kwargs s1).1
     = Raise (ClientResponseError 401 "Token refresh failed: bad credentials")
  /\ wire (AuthClient.sent
             (AuthClient.request script_serve script_now script_repr
                "GET" "service/ping" no_kwargs s1).2)
     = [("POST", "https://link2.lk.nu/auth/auth/refresh")].
Proof.
  cbv zeta. repeat split.
Qed.

(** [set_valve_state] and [close_valve] on a logged-in session. *)
Lemma set_valve_state_witness :
  let this := CubicAccessClient.Mk "SN42" in
  let s := logged_in 100 [ok_response (PDict ∅)] in
  (exists c : Call,
     AuthClient.sent
       (CubicAccessClient.set_valve_state script_serve script_now script_repr
          this true s).2 = [c]
     /\ c_method c = "POST"
     /\ c_url c = "https://link2.lk.nu/control/cubic/secure/SN42/valve/open")
  /\ wire (AuthClient.sent
             (CubicAccessClient.close_valve script_serve script_now script_repr
                this s).2)
     = [("POST", "https://link2.lk.nu/control/cubic/secure/SN42/valve/close")].
Proof.
  cbv zeta.
  pose proof (set_valve_state_paths script_serve script_now script_repr
                (CubicAccessClient.Mk "SN42")) as (Hopen & Hclose & _ & Heq).
  cbv zeta in Hopen, Hclose. split.
  - exact (issues_not_expired script_serve script_now script_repr _ _ _
             (logged_in 100 [ok_response (PDict ∅)]) Hopen eq_refl).
  - rewrite Heq.
    destruct (issues_not_expired script_serve script_now script_repr _ _ _
                (logged_in 100 [ok_response (PDict ∅)]) Hclose eq_refl)
      as (c & Hs & Hm & Hu).
    rewrite Hs. unfold wire. rewrite map_app. cbn [map].
    rewrite Hm, Hu. reflexivity.
Defined.

Lemma cubic_client_witness :
  let this := CubicClient.Mk "SN42" in
  let get := CubicClient.get_measurement script_serve script_now script_repr this true in
  let s := logged_in 100 [ok_response (PDict ∅); ok_response (PDict ∅)] in
  wire (AuthClient.sent (get (get s).2).2)
  = [("GET", "https://link2.lk.nu/service/cubic/secure/SN42/measurement/1");
     ("GET", "https://link2.lk.nu/service/cubic/secure/SN42/measurement/1")].
Proof.
  cbv zeta.
  pose proof (cubic_client_paths script_serve script_now script_repr
                (CubicClient.Mk "SN42") true) as (_ & _ & _ & _ & H).
  cbv zeta in H.
  exact (H (logged_in 100 [ok_response (PDict ∅); ok_response (PDict ∅)])
           eq_refl eq_refl).
Defined.

(** The remote's answers to the lookup and to the data request. *)
Definition user_response (uid : pyval) : Response :=
  ok_response (PDict {[ "userId" := uid ]}).

(** Two calls on one instance: one lookup, then the cached id. *)
Lemma user_id_memoized_witness :
  let s := logged_in 100 [user_response (PStr "u-17"); ok_response (PList []);
                          ok_response (PList [])] in
  let r1 := UserClient.get_structure script_serve script_now script_repr
              false UserClient.init s in
  let r2 := UserClient.get_information script_serve script_now script_repr
              true r1.1.2 r1.2 in
  r1.1.2 = UserClient.Mk (PStr "u-17")
  /\ lookups base_url (AuthClient.sent r1.2) = 1%nat
  /\ r2.1.2 = UserClient.Mk (PStr "u-17")
  /\ lookups base_url (AuthClient.sent r2.2) = 1%nat
  /\ wire (AuthClient.sent r2.2)
     = [("GET", "https://link2.lk.nu/auth/auth/user");
        ("GET", "https://link2.lk.nu/service/users/user/u-17/structure/0");
        ("GET", "https://link2.lk.nu/service/users/user/u-17/information/1")].
Proof.
  cbv zeta.
  pose proof (user_id_memoized script_serve script_now script_repr "structure" false
                UserClient.init
                (logged_in 100 [user_response (PStr "u-17"); ok_response (PList []);
                                ok_response (PList [])]))
    as (_ & H1 & _).
  cbv zeta in H1.
  destruct (H1 eq_refl _ _ eq_refl) as (_ & Hget & Hl).
  change (UserClient.get_structure script_serve script_now script_repr false)
    with (UserClient._get_user_data script_serve script_now script_repr "structure" false).
  rewrite Hget in *. cbn [fst snd] in *.
  split; [reflexivity|]. split; [exact Hl|].
  match goal with
  | |- context [UserClient.get_information _ _ _ _ ?u ?s'] =>
      pose proof (user_id_memoized script_serve script_now script_repr
                    "information" true u s') as (H2 & _)
  end.
  cbv zeta in H2. destruct (H2 eq_refl) as (Hget2 & Hl2).
  change (UserClient.get_information script_serve script_now script_repr true)
    with (UserClient._get_user_data script_serve script_now script_repr "information" true).
  rewrite Hget2 in *. cbn [fst snd] in *.
  split; [reflexivity|]. split; [|reflexivity].
  reflexivity.
Defined.

(** Claim C6 fails when the id received is falsy (here the empty
    string): both calls succeed and each sends a lookup.  It also fails
    when the first lookup is refused: the first call raises, and the
    second call sends the lookup again. *)
Lemma user_id_lookup_repeated_counterexample :
  let get := UserClient.get_structure script_serve script_now script_repr false in
  let s := logged_in 100 [user_response (PStr ""); ok_response (PList []);
                          user_response (PStr ""); ok_response (PList [])] in
  let r1 := get UserClient.init s in
  let r2 := get r1.1.2 r1.2 in
  let s' := logged_in 100 [denied; user_response (PStr "u-17"); ok_response (PList [])] in
  let q1 := get UserClient.init s' in
  let q2 := get q1.1.2 q1.2 in
  (r1.1.1 = Ok (PList []) /\ r2.1.1 = Ok (PList [])
   /\ wire (AuthClient.sent r2.2)
      = [("GET", "https://link2.lk.nu/auth/auth/user");
         ("GET", "https://link2.lk.nu/service/users/user//structure/0");
         ("GET", "https://link2.lk.nu/auth/auth/user");
         ("GET", "https://link2.lk.nu/service/users/user//structure/0")]
   /\ lookups base_url (AuthClient.sent r2.2) = 2%nat)
  /\ (q1.1.1 = Raise (ClientResponseError 401
                        "Failed to execute request 401 - bad credentials")
      /\ q2.1.1 = Ok (PList [])
      /\ wire (AuthClient.sent q2.2)
         = [("GET", "https://link2.lk.nu/auth/auth/user");
            ("GET", "https://link2.lk.nu/auth/auth/user");
            ("GET", "https://link2.lk.nu/service/users/user/u-17/structure/0")]
      /\ lookups base_url (AuthClient.sent q2.2) = 2%nat).
Proof.
  cbv zeta. repeat split.
Qed.

(** The scenario of the specification: a login answered with status 200,
    then [get_structure()]: a lookup, then the structure request, both
    bearing the token of the login. *)
Example login_then_get_structure :
  let s0 := fresh_store base_url 100
              [ok_response (token_body "A1" "R1" 3600 7200);
               user_response (PStr "u-17"); ok_response (PList [])] in
  let s1 := (AuthClient.login script_serve "user@example.com" "secret" s0).2 in
  let r := UserClient.get_structure script_serve script_now script_repr
             false UserClient.init s1 in
  r.1.1 = Ok (PList [])
  /\ wire (AuthClient.sent r.2)
     = [("POST", "https://link2.lk.nu/auth/auth/login");
        ("GET", "https://link2.lk.nu/auth/auth/user");
        ("GET", "https://link2.lk.nu/service/users/user/u-17/structure/0")]
  /\ map (fun c => headers_of c !! "Authorization") (AuthClient.sent r.2)
     = [None; Some "Bearer A1"; Some "Bearer A1"].
Proof. cbv zeta. repeat split. Qed.

(** ** Further concrete runs *)

Definition unavailable : Response :=
  {| status := 503; text := "down"; json := None |}.

Lemma request_result_witness :
  (AuthClient.request script_serve script_now script_repr "GET" "service/ping"
     no_kwargs (logged_in 100 [unavailable])).1
  = Raise (ClientResponseError 503 "Failed to execute request 503 - down")
  /\ (AuthClient.request script_serve script_now script_repr "GET" "service/ping"
        no_kwargs (logged_in 100 [ok_response (PList [PInt 7])])).1
     = Ok (PList [PInt 7]).
Proof.
  split.
  - refine (proj2 (proj2 (proj2
      (request_result script_serve script_now script_repr "GET" "service/ping"
         no_kwargs (logged_in 100 [unavailable]) (logged_in 100 [unavailable])
         eq_refl))) _).
    vm_compute. discriminate.
  - exact (proj1 (proj2
      (request_result script_serve script_now script_repr "GET" "service/ping"
         no_kwargs (logged_in 100 [ok_response (PList [PInt 7])])
         (logged_in 100 [ok_response (PList [PInt 7])]) eq_refl))
      eq_refl _ eq_refl).
Defined.

(** The probe is refused, so a refresh follows; the probe is accepted,
    so nothing follows. *)
Lemma ensure_with_server_check_witness :
  wire (AuthClient.sent
          (AuthClient._ensure_valid_access_token script_serve script_now script_repr
             true (logged_in 100 [denied; ok_response (token_body "A2" "R2" 7200 9000)])).2)
  = [("GET", "https://link2.lk.nu/auth/validate/token");
     ("POST", "https://link2.lk.nu/auth/auth/refresh")]
  /\ AuthClient._ensure_valid_access_token script_serve script_now script_repr
       true (logged_in 100 [ok_response PNone])
     = (Ok tt, after_call (logged_in 100 [ok_response PNone])
                 (probe_call script_repr (AuthClient.self (logged_in 100 [])))
                 {| script_now := 100; script_left := [] |}).
Proof.
  split.
  - pose proof (ensure_with_server_check script_serve script_now script_repr
                  (logged_in 100 [denied; ok_response (token_body "A2" "R2" 7200 9000)]))
      as (_ & H & _).
    cbv zeta in H. destruct (H eq_refl eq_refl) as (_ & H2).
    rewrite H2; [reflexivity|]. vm_compute. discriminate.
  - pose proof (ensure_with_server_check script_serve script_now script_repr
                  (logged_in 100 [ok_response PNone]))
      as (_ & H & _).
    cbv zeta in H. destruct (H eq_refl eq_refl) as (H1 & _).
    exact (H1 eq_refl).
Defined.

Lemma get_user_id_witness :
  (AuthClient.get_user_id script_serve script_now script_repr
     (logged_in 100 [ok_response (PDict ∅)])).1 = Raise (KeyError "userId")
  /\ (AuthClient.get_user_id script_serve script_now script_repr
        (logged_in 100 [ok_response (PList [])])).1 = Raise TypeError
  /\ (AuthClient.get_user_id script_serve script_now script_repr
        (logged_in 100 [user_response (PInt 17)])).1 = Ok (PInt 17).
Proof.
  split; [|split].
  - pose proof (get_user_id_result script_serve script_now script_repr
                  (logged_in 100 [ok_response (PDict ∅)])
                  (logged_in 100 [ok_response (PDict ∅)]) eq_refl)
      as (_ & _ & _ & _ & H & _).
    exact (H eq_refl ∅ eq_refl eq_refl).
  - pose proof (get_user_id_result script_serve script_now script_repr
                  (logged_in 100 [ok_response (PList [])])
                  (logged_in 100 [ok_response (PList [])]) eq_refl)
      as (_ & _ & _ & _ & _ & H & _).
    refine (H eq_refl (PList []) eq_refl _). discriminate.
  - pose proof (get_user_id_result script_serve script_now script_repr
                  (logged_in 100 [user_response (PInt 17)])
                  (logged_in 100 [user_response (PInt 17)]) eq_refl)
      as (_ & _ & _ & H & _).
    exact (H eq_refl {[ "userId" := PInt 17 ]} (PInt 17) eq_refl eq_refl).
Defined.

Lemma login_then_request_witness :
  let s := fresh_store base_url 100
             [ok_response (token_body "A1" "R1" 3600 7200); ok_response (PList [])] in
  let s1 := (AuthClient.login script_serve "user@example.com" "secret" s).2 in
  wire (AuthClient.sent
          (AuthClient.request script_serve script_now script_repr
             "GET" "service/ping" no_kwargs s1).2)
  = [("POST", "https://link2.lk.nu/auth/auth/login");
     ("GET", "https://link2.lk.nu/service/ping")].
Proof.
  cbv zeta.
  destruct (login_then_request script_serve script_now script_repr
              "user@example.com" "secret" "GET" "service/ping" no_kwargs
              (fresh_store base_url 100
                 [ok_response (token_body "A1" "R1" 3600 7200); ok_response (PList [])])
              {[ "accessToken" := PStr "A1"; "refreshToken" := PStr "R1";
                 "accessTokenExpire" := PInt 3600; "refreshTokenExpire" := PInt 7200 ]}
              (inject_Z 3600) (inject_Z 160) eq_refl eq_refl eq_refl)
    as (Hs & _).
  - discriminate.
  - vm_compute. reflexivity.
  - vm_compute. discriminate.
  - rewrite Hs. reflexivity.
Defined.

(** A login body without [refreshToken]. *)
Definition access_only : gmap string pyval :=
  {[ "accessToken" := PStr "A1"; "accessTokenExpire" := PInt 3600 ]}.

Lemma login_without_refresh_token_witness :
  let s := fresh_store base_url 100 [ok_response (PDict access_only);
                                     ok_response (token_body "A2" "R2" 7200 9000)] in
  let out := AuthClient.login script_serve "user@example.com" "secret" s in
  out.1 = Ok (PDict access_only)
  /\ AuthClient.refresh_token script_serve script_repr out.2
     = (Raise (ValueError "No refresh token available. Please login first."), out.2).
Proof.
  cbv zeta.
  destruct (login_without_refresh_token script_serve script_now script_repr
              "user@example.com" "secret"
              (fresh_store base_url 100 [ok_response (PDict access_only);
                                         ok_response (token_body "A2" "R2" 7200 9000)])
              access_only eq_refl eq_refl eq_refl)
    as (H1 & H2 & _).
  split; [exact H1 | exact (H2 _ eq_refl)].
Defined.

Lemma request_non_numeric_expiry_witness :
  let s := AuthClient.MkStore
             (AuthClient.Mk base_url (PStr "A1") (PStr "R1")
                (PStr "2030-01-01T00:00:00Z") PNone)
             {| script_now := 100; script_left := [ok_response (PList [])] |} [] in
  AuthClient.request script_serve script_now script_repr "GET" "service/ping" no_kwargs s
  = (Raise TypeError, s).
Proof.
  cbv zeta.
  exact (proj2 (request_non_numeric_expiry script_serve script_now script_repr
                  "GET" "service/ping" no_kwargs
                  (AuthClient.MkStore
                     (AuthClient.Mk base_url (PStr "A1") (PStr "R1")
                        (PStr "2030-01-01T00:00:00Z") PNone)
                     {| script_now := 100; script_left := [ok_response (PList [])] |} [])
                  eq_refl eq_refl)).
Defined.

Lemma failed_request_keeps_refreshed_tokens_witness :
  let s := logged_in 3541 [ok_response (token_body "A2" "R2" 7200 9000); unavailable] in
  let out := AuthClient.request script_serve script_now script_repr
               "GET" "service/ping" no_kwargs s in
  out.1 = Raise (ClientResponseError 503 "Failed to execute request 503 - down")
  /\ AuthClient.self out.2
     = AuthClient.Mk base_url (PStr "A2") (PStr "R2") (PInt 7200) (PInt 9000).
Proof.
  cbv zeta.
  destruct (failed_request_keeps_refreshed_tokens script_serve script_now script_repr
              "GET" "service/ping" no_kwargs
              (logged_in 3541 [ok_response (token_body "A2" "R2" 7200 9000); unavailable])
              {[ "accessToken" := PStr "A2"; "refreshToken" := PStr "R2";
                 "accessTokenExpire" := PInt 7200; "refreshTokenExpire" := PInt 9000 ]}
              eq_refl eq_refl eq_refl eq_refl)
    as (H1 & H2).
  - vm_compute. discriminate.
  - split; [rewrite H1; reflexivity | rewrite H2; reflexivity].
Defined.

Lemma serial_numbers_separate_requests_witness :
  let s := logged_in 100 [ok_response (PDict ∅)] in
  wire (AuthClient.sent
          (CubicAccessClient.set_valve_state script_serve script_now script_repr
             (CubicAccessClient.Mk "SN42") true s).2)
  <> wire (AuthClient.sent
             (CubicAccessClient.set_valve_state script_serve script_now script_repr
                (CubicAccessClient.Mk "SN43") true s).2).
Proof.
  cbv zeta.
  refine (proj2 (serial_numbers_separate_requests script_serve script_now script_repr
                   (logged_in 100 [ok_response (PDict ∅)]) false true eq_refl)
                (CubicAccessClient.Mk "SN42") (CubicAccessClient.Mk "SN43") _).
  discriminate.
Defined.

Lemma refresh_uses_latest_tokens_witness :
  let s := logged_in 100 [ok_response (token_body "A2" "R2" 7200 9000);
                          ok_response (token_body "A3" "R3" 9000 9900)] in
  let s1 := (AuthClient.refresh_token script_serve script_repr s).2 in
  exists c : Call,
    AuthClient.sent (AuthClient.refresh_token script_serve script_repr s1).2
    = [refresh_call script_repr (AuthClient.self s); c]
    /\ kw_json (c_kwargs c) = Some (PDict {[ "refreshToken" := PStr "R2" ]})
    /\ headers_of c !! "Authorization" = Some "Bearer A2".
Proof.
  cbv zeta.
  destruct (refresh_uses_latest_tokens script_serve script_repr
              (logged_in 100 [ok_response (token_body "A2" "R2" 7200 9000);
                              ok_response (token_body "A3" "R3" 9000 9900)])
              {[ "accessToken" := PStr "A2"; "refreshToken" := PStr "R2";
                 "accessTokenExpire" := PInt 7200; "refreshTokenExpire" := PInt 9000 ]}
              eq_refl eq_refl eq_refl eq_refl)
    as (c & Hs & _ & _ & Hj & Hh).
  exists c. split; [exact Hs|]. split; [exact Hj | exact Hh].
Defined.

Lemma request_sends_at_most_two_witness :
  let s := logged_in 3541 [ok_response (token_body "A2" "R2" 7200 9000);
                           ok_response (PList [])] in
  let out := AuthClient.request script_serve script_now script_repr
               "GET" "service/ping" no_kwargs s in
  length (AuthClient.sent out.2) = 2%nat.
Proof.
  cbv zeta.
  pose proof (request_sends_at_most_two script_serve script_now script_repr
                "GET" "service/ping" no_kwargs
                (logged_in 3541 [ok_response (token_body "A2" "R2" 7200 9000);
                                 ok_response (PList [])]))
    as (_ & H & _).
  cbv zeta in H.
  destruct (H (PList []) eq_refl) as [Hs | Hs].
  - exfalso. apply (f_equal (@length Call)) in Hs. vm_compute in Hs. discriminate Hs.
  - rewrite Hs. reflexivity.
Defined.

(** Rounding away from the exact sum in the other direction: at the clock
    reading 2^55 the float sum [now + 60] is 2^55 + 64, so the integer
    expiry 2^55 + 61, above the exact sum, counts as expired. *)
Example expired_by_rounding :
  AuthClient.is_access_token_expired script_now
    (with_expiry 0x1p55 (PInt (2 ^ 55 + 61)))
  = (Ok true, with_expiry 0x1p55 (PInt (2 ^ 55 + 61)))
  /\ float_value (0x1p55 + 60) = XFin (inject_Z (2 ^ 55 + 64)).
Proof. split; vm_compute; reflexivity. Qed.
